(** * The asyncpg plugin configuration of sqlstack

    A shallow embedding of [src/server/app/contrib/asyncpg/config.py]:
    the two [before_send] handlers, the pool life cycle of
    [AsyncpgConfig] and its two dependency providers, together with
    the properties of the per-request connection life cycle.

    Python objects that the module only passes around (pools,
    connections) are handles; the mutable objects it updates (the
    configuration instance, the application state, the scope state)
    are fields of an explicit [World] that every operation threads,
    and exceptions are results of a small state-and-error monad. *)

From Stdlib Require Import ZArith.
From stdpp Require Import gmap strings list fin_maps.

Local Open Scope Z_scope.
Local Open Scope string_scope.
Local Open Scope list_scope.

(** ** Values *)

(** What a slot of the application state or of the scope state can
    hold: Python's [None], a connection (or pool connection proxy), or
    a pool. *)
Inductive Obj : Type :=
  | ONone
  | OConn (c : nat)
  | OPool (p : nat).

#[global] Instance Obj_eq_dec : EqDecision Obj.
Proof. solve_decision. Defined.

(** [x is None] and the truth value of [x]; pools and connections
    define neither [__bool__] nor [__len__], so both tests agree. *)
Definition is_none (o : Obj) : bool :=
  match o with ONone => true | _ => false end.

Definition truthy (o : Obj) : bool := negb (is_none o).

(** The exceptions of the module and of the calls it makes. *)
Inductive Exn : Type :=
  | KeyError (key : string)
  | AttributeError (attr : string)
  | TypeError (msg : string)
  | ImproperlyConfiguredException (detail : string)
  | BackendError (code : nat).

#[global] Instance Exn_eq_dec : EqDecision Exn.
Proof. solve_decision. Defined.

(** Values of the keyword arguments handed to the pool constructor. *)
Inductive CfgVal : Type :=
  | CNone
  | CStr (s : string)
  | CInt (z : Z)
  | CRef (h : nat).

#[global] Instance CfgVal_eq_dec : EqDecision CfgVal.
Proof. solve_decision. Defined.

(** ** Calls that leave the module *)

(** One entry per call on a pool, on a connection, or of the pool
    constructor, logged when the call starts to run. *)
Inductive Event : Type :=
  | EvCreatePool (kwargs : list (string * CfgVal))
  | EvAcquire (p : nat)
  | EvRelease (p : nat) (session : Obj)
  | EvClose (p : nat)
  | EvCommit (c : nat)
  | EvRollback (c : nat).

#[global] Instance Event_eq_dec : EqDecision Event.
Proof. solve_decision. Defined.

Definition is_release (e : Event) : bool :=
  match e with EvRelease _ _ => true | _ => false end.

Definition is_pool_op (e : Event) : bool :=
  match e with
  | EvAcquire _ | EvRelease _ _ | EvClose _ => true
  | _ => false
  end.

(** [asyncio.wait_for(fut, timeout)] declares [timeout] without a
    default.  [MissingTimeoutRaises] is that declaration: a call with
    one argument raises [TypeError] and the awaitable is never run.
    [AwaitsUnbounded] is the reading in which the awaitable is simply
    awaited.  Results that hold for both are stated for both. *)
Inductive WaitFor : Type :=
  | MissingTimeoutRaises
  | AwaitsUnbounded.

(** How the database side answers.  Every answer may depend on the
    calls made so far, so a pool can hand out a different connection
    each time and any call can fail.

    [conn_has_commit] and [conn_has_rollback] say whether the class of
    a connection defines the method at all.  The [Connection] of
    asyncpg defines neither (and its [PoolConnectionProxy] forwards
    the lookup to the connection), so for the connections of a stock
    pool both are [false]; a [connection_class] of the pool
    configuration may define them. *)
Record Backend : Type := {
  asyncpg_create_pool : list (string * CfgVal) -> list Event -> Exn + Obj;
  pool_acquire : nat -> list Event -> Exn + nat;
  pool_release : nat -> Obj -> list Event -> option Exn;
  pool_close : nat -> list Event -> option Exn;
  conn_has_commit : nat -> bool;
  conn_has_rollback : nat -> bool;
  conn_commit : nat -> list Event -> option Exn;
  conn_rollback : nat -> list Event -> option Exn;
  wait_for_one_arg : WaitFor
}.

(** ** Configuration records *)

(** [Empty] fields are [None] here; [simple_asdict] leaves them out. *)
Record PoolConfig : Type := {
  dsn : string;
  connect_kwargs : option CfgVal;
  connection_class : option CfgVal;
  record_class : option CfgVal;
  min_size : option CfgVal;
  max_size : option CfgVal;
  max_queries : option CfgVal;
  max_inactive_connection_lifetime : option CfgVal;
  setup : option CfgVal;
  init : option CfgVal;
  loop : option CfgVal
}.

Inductive Handler : Type :=
  | DefaultHandler
  | AutocommitHandler.

(** The fields of [AsyncpgConfig] that the pool and connection code
    reads or writes (the two JSON callables play no part in it). *)
Record AsyncpgConfig : Type := {
  pool_config : option PoolConfig;
  before_send_handler : Handler;
  pool_dependency_key : string;
  session_dependency_key : string;
  pool_app_state_key : string;
  pool_instance : Obj
}.

Definition set_pool_instance (o : Obj) (cfg : AsyncpgConfig) : AsyncpgConfig :=
  {| pool_config := pool_config cfg;
     before_send_handler := before_send_handler cfg;
     pool_dependency_key := pool_dependency_key cfg;
     session_dependency_key := session_dependency_key cfg;
     pool_app_state_key := pool_app_state_key cfg;
     pool_instance := o |}.

(** An ASGI message: its ["type"] and, when present, its ["status"]. *)
Record Message : Type := {
  msg_type : string;
  msg_status : option Z
}.

(** ** The world and the monad *)

Record World : Type := {
  config : AsyncpgConfig;
  app_state : gmap string Obj;
  scope_state : gmap string Obj;
  events : list Event
}.

Definition with_config (cfg : AsyncpgConfig) (w : World) : World :=
  {| config := cfg; app_state := app_state w;
     scope_state := scope_state w; events := events w |}.

Definition with_app_state (s : gmap string Obj) (w : World) : World :=
  {| config := config w; app_state := s;
     scope_state := scope_state w; events := events w |}.

Definition with_scope_state (s : gmap string Obj) (w : World) : World :=
  {| config := config w; app_state := app_state w;
     scope_state := s; events := events w |}.

Definition with_events (l : list Event) (w : World) : World :=
  {| config := config w; app_state := app_state w;
     scope_state := scope_state w; events := l |}.

Inductive Result (A : Type) : Type :=
  | Ret (a : A)
  | Raise (e : Exn).

Arguments Ret {A} a.
Arguments Raise {A} e.

Definition M (A : Type) : Type := World -> Result A * World.

Definition ret {A} (a : A) : M A := fun w => (Ret a, w).

Definition raise {A} (e : Exn) : M A := fun w => (Raise e, w).

Definition bind {A B} (m : M A) (k : A -> M B) : M B :=
  fun w =>
    match m w with
    | (Ret a, w') => k a w'
    | (Raise e, w') => (Raise e, w')
    end.

(** [try: body finally: fin].  The [finally] suite always runs; an
    exception of its own replaces the pending one, otherwise the
    outcome of [body] stands. *)
Definition try_finally {A} (body : M A) (fin : M unit) : M A :=
  fun w =>
    match body w with
    | (r, w') =>
        match fin w' with
        | (Ret _, w'') => (r, w'')
        | (Raise e, w'') => (Raise e, w'')
        end
    end.

Declare Scope py_scope.
Delimit Scope py_scope with py.
Notation "x <- m ;; k" := (bind m (fun x => k))
  (at level 100, m at next level, right associativity) : py_scope.
Notation "m ;;; k" := (bind m (fun _ => k))
  (at level 100, right associativity) : py_scope.
Local Open Scope py_scope.

Definition get_world : M World := fun w => (Ret w, w).

Definition log (e : Event) : M unit :=
  fun w => (Ret tt, with_events (events w ++ [e]) w).

Definition of_outcome (o : option Exn) : M unit :=
  match o with
  | Some e => raise e
  | None => ret tt
  end.

(** ** Constants *)

(** The four names imported from [litestar.constants] are the ASGI
    message types they stand for. *)
Definition HTTP_DISCONNECT : string := "http.disconnect".
Definition HTTP_RESPONSE_START : string := "http.response.start".
Definition WEBSOCKET_CLOSE : string := "websocket.close".
Definition WEBSOCKET_DISCONNECT : string := "websocket.disconnect".

Definition POOL_SCOPE_KEY : string := "_asyncpg_db_pool".
Definition SESSION_SCOPE_KEY : string := "_asyncpg_db_connection".

Definition SESSION_TERMINUS_ASGI_EVENTS : gset string :=
  {[ HTTP_RESPONSE_START; HTTP_DISCONNECT; WEBSOCKET_DISCONNECT; WEBSOCKET_CLOSE ]}.

(** [message["type"] in SESSION_TERMINUS_ASGI_EVENTS] *)
Definition is_terminus (message : Message) : bool :=
  bool_decide (msg_type message ∈ SESSION_TERMINUS_ASGI_EVENTS).

(** ** Mappings: the scope state and the application state *)

(** [get_litestar_scope_state(scope, key)], whose default is [None]. *)
Definition get_litestar_scope_state (key : string) : M Obj :=
  fun w => (Ret (default ONone (scope_state w !! key)), w).

(** [set_litestar_scope_state(scope, key, value)] *)
Definition set_litestar_scope_state (key : string) (value : Obj) : M unit :=
  fun w => (Ret tt, with_scope_state (<[key := value]> (scope_state w)) w).

(** [delete_litestar_scope_state(scope, key)] is a [del] on the
    mapping, which raises [KeyError] on a missing key. *)
Definition delete_litestar_scope_state (key : string) : M unit :=
  fun w =>
    match scope_state w !! key with
    | Some _ => (Ret tt, with_scope_state (delete key (scope_state w)) w)
    | None => (Raise (KeyError key), w)
    end.

(** [state.get(key)] *)
Definition state_get (key : string) : M Obj :=
  fun w => (Ret (default ONone (app_state w !! key)), w).

(** [state.pop(key)], with no default: [KeyError] on a missing key. *)
Definition state_pop (key : string) : M Obj :=
  fun w =>
    match app_state w !! key with
    | Some o => (Ret o, with_app_state (delete key (app_state w)) w)
    | None => (Raise (KeyError key), w)
    end.

(** [state.update(items)]: the items win over the entries present. *)
Definition state_update (items : gmap string Obj) : M unit :=
  fun w => (Ret tt, with_app_state (items ∪ app_state w) w).

(** [message["status"]] *)
Definition message_status (message : Message) : M Z :=
  match msg_status message with
  | Some s => ret s
  | None => raise (KeyError "status")
  end.

(** ** Method calls on pools and connections *)

Section Calls.

Variable be : Backend.

(** [await pool.acquire()] *)
Definition call_acquire (pool : Obj) : M Obj :=
  match pool with
  | OPool p =>
      w <- get_world ;;
      log (EvAcquire p) ;;;
      match pool_acquire be p (events w) with
      | inl e => raise e
      | inr c => ret (OConn c)
      end
  | _ => raise (AttributeError "acquire")
  end.

(** The body of the coroutine [pool.release(session)]. *)
Definition release_body (p : nat) (session : Obj) : M unit :=
  w <- get_world ;;
  log (EvRelease p session) ;;;
  of_outcome (pool_release be p session (events w)).

(** [pool.release(session)]: the attribute is looked up and the call
    builds a coroutine; nothing of its body runs until it is awaited. *)
Definition call_release (pool session : Obj) : M (M unit) :=
  match pool with
  | OPool p => ret (release_body p session)
  | _ => raise (AttributeError "release")
  end.

(** [await pool.close()] *)
Definition call_close (pool : Obj) : M unit :=
  match pool with
  | OPool p =>
      w <- get_world ;;
      log (EvClose p) ;;;
      of_outcome (pool_close be p (events w))
  | _ => raise (AttributeError "close")
  end.

(** [await session.commit()]: the attribute is looked up first, and
    the call is made only when the connection has the method. *)
Definition call_commit (session : Obj) : M unit :=
  match session with
  | OConn c =>
      if conn_has_commit be c then
        w <- get_world ;;
        log (EvCommit c) ;;;
        of_outcome (conn_commit be c (events w))
      else raise (AttributeError "commit")
  | _ => raise (AttributeError "commit")
  end.

(** [await session.rollback()], in the same way. *)
Definition call_rollback (session : Obj) : M unit :=
  match session with
  | OConn c =>
      if conn_has_rollback be c then
        w <- get_world ;;
        log (EvRollback c) ;;;
        of_outcome (conn_rollback be c (events w))
      else raise (AttributeError "rollback")
  | _ => raise (AttributeError "rollback")
  end.

(** [await asyncio.wait_for(aw)], the call with one argument. *)
Definition asyncio_wait_for_one_arg {A} (aw : M A) : M A :=
  match wait_for_one_arg be with
  | MissingTimeoutRaises =>
      raise (TypeError "wait_for() missing 1 required positional argument: 'timeout'")
  | AwaitsUnbounded => aw
  end.

(** The pool constructor called on the keyword arguments of [pool_config]. *)
Definition call_create_pool (kwargs : list (string * CfgVal)) : M Obj :=
  w <- get_world ;;
  log (EvCreatePool kwargs) ;;;
  match asyncpg_create_pool be kwargs (events w) with
  | inl e => raise e
  | inr o => ret o
  end.

(** ** The [before_send] handlers *)

Definition default_before_send_handler (message : Message) : M unit :=
  session <- get_litestar_scope_state SESSION_SCOPE_KEY ;;
  pool <- get_litestar_scope_state POOL_SCOPE_KEY ;;
  if truthy pool && truthy session && is_terminus message then
    coro <- call_release pool session ;;
    coro ;;;
    delete_litestar_scope_state SESSION_SCOPE_KEY
  else ret tt.

(** The [try] suite of the autocommit handler. *)
Definition commit_or_rollback (session : Obj) (message : Message) : M unit :=
  if negb (is_none session) && String.eqb (msg_type message) HTTP_RESPONSE_START then
    status <- message_status message ;;
    if ((200 <=? status) && (status <? 300))%Z then call_commit session
    else call_rollback session
  else ret tt.

(** Its [finally] suite. *)
Definition release_on_terminus (session pool : Obj) (message : Message) : M unit :=
  if truthy session && is_terminus message then
    coro <- call_release pool session ;;
    asyncio_wait_for_one_arg coro ;;;
    delete_litestar_scope_state SESSION_SCOPE_KEY
  else ret tt.

Definition autocommit_before_send_handler (message : Message) : M unit :=
  session <- get_litestar_scope_state SESSION_SCOPE_KEY ;;
  pool <- get_litestar_scope_state POOL_SCOPE_KEY ;;
  try_finally
    (commit_or_rollback session message)
    (release_on_terminus session pool message).

Definition run_handler (h : Handler) : Message -> M unit :=
  match h with
  | DefaultHandler => default_before_send_handler
  | AutocommitHandler => autocommit_before_send_handler
  end.

(** ** [AsyncpgConfig] *)

Definition get_config : M AsyncpgConfig := fun w => (Ret (config w), w).

Definition assign_pool_instance (o : Obj) : M unit :=
  fun w => (Ret tt, with_config (set_pool_instance o (config w)) w).

Definition kwarg (name : string) (field : option CfgVal) : list (string * CfgVal) :=
  match field with
  | Some v => [(name, v)]
  | None => []
  end.

(** [simple_asdict(pool_config, exclude_empty=True, convert_nested=False)] *)
Definition simple_asdict (pc : PoolConfig) : list (string * CfgVal) :=
  [("dsn", CStr (dsn pc))]
  ++ kwarg "connect_kwargs" (connect_kwargs pc)
  ++ kwarg "connection_class" (connection_class pc)
  ++ kwarg "record_class" (record_class pc)
  ++ kwarg "min_size" (min_size pc)
  ++ kwarg "max_size" (max_size pc)
  ++ kwarg "max_queries" (max_queries pc)
  ++ kwarg "max_inactive_connection_lifetime" (max_inactive_connection_lifetime pc)
  ++ kwarg "setup" (setup pc)
  ++ kwarg "init" (init pc)
  ++ kwarg "loop" (loop pc).

Definition pool_config_dict : M (list (string * CfgVal)) :=
  self <- get_config ;;
  match pool_config self with
  | Some pc => ret (simple_asdict pc)
  | None =>
      raise (ImproperlyConfiguredException
               "'pool_config' methods can not be used when a 'pool_instance' is provided.")
  end.

Definition create_pool : M Obj :=
  self <- get_config ;;
  if negb (is_none (pool_instance self)) then ret (pool_instance self)
  else
    match pool_config self with
    | None =>
        raise (ImproperlyConfiguredException
                 "One of 'pool_config' or 'pool_instance' must be provided.")
    | Some _ =>
        kwargs <- pool_config_dict ;;
        created <- call_create_pool kwargs ;;
        assign_pool_instance created ;;;
        self <- get_config ;;
        if is_none (pool_instance self) then
          raise (ImproperlyConfiguredException
                   "Could not configure the 'pool_instance'. Please check your configuration.")
        else ret (pool_instance self)
    end.

Definition provide_pool : M Obj :=
  self <- get_config ;;
  state_get (pool_app_state_key self).

Definition provide_connection : M Obj :=
  connection <- get_litestar_scope_state SESSION_SCOPE_KEY ;;
  if is_none connection then
    pool <- provide_pool ;;
    connection <- call_acquire pool ;;
    set_litestar_scope_state SESSION_SCOPE_KEY connection ;;;
    ret connection
  else ret connection.

Definition create_app_state_items : M (gmap string Obj) :=
  self <- get_config ;;
  pool <- create_pool ;;
  ret {[ pool_app_state_key self := pool ]}.

Definition update_app_state : M unit :=
  items <- create_app_state_items ;;
  state_update items.

Definition on_startup : M unit := update_app_state.

Definition on_shutdown : M unit :=
  self <- get_config ;;
  pool <- state_pop (pool_app_state_key self) ;;
  if negb (is_none pool) then call_close pool else ret tt.

End Calls.

(** ** Counting calls *)

Definition releases (w : World) : nat :=
  length (filter (fun e => is_release e = true) (events w)).

Definition pool_ops (w : World) : list Event :=
  filter (fun e => is_pool_op e = true) (events w).

(** The messages of a list handled one after the other; a handler that
    raises does not stop the ones after it. *)
Fixpoint handle_all (handle : Message -> M unit) (messages : list Message)
    (w : World) : World :=
  match messages with
  | [] => w
  | message :: rest => handle_all handle rest (snd (handle message w))
  end.

(** [n] calls of [m] in a row, on the world each one leaves. *)
Fixpoint call_n {A} (n : nat) (m : M A) (w : World) : list (Result A) * World :=
  match n with
  | O => ([], w)
  | S n' =>
      match m w with
      | (r, w') =>
          match call_n n' m w' with
          | (rs, w'') => (r :: rs, w'')
          end
      end
  end.

(** ** Concrete backends and worlds *)

Module Sample.

(** A database side on which every call succeeds: the constructor
    builds pool 1 and a pool hands out connection 7, of a connection
    class that defines [commit()] and [rollback()]. *)
Definition backend (wf : WaitFor) : Backend :=
  {| asyncpg_create_pool := fun _ _ => inr (OPool 1);
     pool_acquire := fun _ _ => inr 7%nat;
     pool_release := fun _ _ _ => None;
     pool_close := fun _ _ => None;
     conn_has_commit := fun _ => true;
     conn_has_rollback := fun _ => true;
     conn_commit := fun _ _ => None;
     conn_rollback := fun _ _ => None;
     wait_for_one_arg := wf |}.

(** The same, except that [commit()] and [rollback()] raise. *)
Definition failing_commit (wf : WaitFor) : Backend :=
  {| asyncpg_create_pool := fun _ _ => inr (OPool 1);
     pool_acquire := fun _ _ => inr 7%nat;
     pool_release := fun _ _ _ => None;
     pool_close := fun _ _ => None;
     conn_has_commit := fun _ => true;
     conn_has_rollback := fun _ => true;
     conn_commit := fun _ _ => Some (BackendError 1);
     conn_rollback := fun _ _ => Some (BackendError 2);
     wait_for_one_arg := wf |}.

(** The same as [backend], except that [pool.release] raises. *)
Definition failing_release (wf : WaitFor) : Backend :=
  {| asyncpg_create_pool := fun _ _ => inr (OPool 1);
     pool_acquire := fun _ _ => inr 7%nat;
     pool_release := fun _ _ _ => Some (BackendError 3);
     pool_close := fun _ _ => None;
     conn_has_commit := fun _ => true;
     conn_has_rollback := fun _ => true;
     conn_commit := fun _ _ => None;
     conn_rollback := fun _ _ => None;
     wait_for_one_arg := wf |}.

Definition pool_cfg : PoolConfig :=
  {| dsn := "postgres://app@db/app";
     connect_kwargs := None; connection_class := None; record_class := None;
     min_size := Some (CInt 1); max_size := Some (CInt 1);
     max_queries := None; max_inactive_connection_lifetime := None;
     setup := None; init := None; loop := None |}.

(** An [AsyncpgConfig] built from a pool configuration only, every
    other field at its default. *)
Definition cfg : AsyncpgConfig :=
  {| pool_config := Some pool_cfg;
     before_send_handler := DefaultHandler;
     pool_dependency_key := "db_pool";
     session_dependency_key := "db_session";
     pool_app_state_key := "db_pool";
     pool_instance := ONone |}.

(** Before [on_startup]: nothing in the application state. *)
Definition fresh : World :=
  {| config := cfg; app_state := ∅; scope_state := ∅; events := [] |}.

(** After [on_startup], at the start of a request. *)
Definition started : World :=
  {| config := set_pool_instance (OPool 1) cfg;
     app_state := {[ "db_pool" := OPool 1 ]};
     scope_state := ∅;
     events := [] |}.

(** A request whose scope holds connection 7 and nothing else, as
    [provide_connection] leaves it. *)
Definition leased : World :=
  {| config := set_pool_instance (OPool 1) cfg;
     app_state := {[ "db_pool" := OPool 1 ]};
     scope_state := {[ SESSION_SCOPE_KEY := OConn 7%nat ]};
     events := [] |}.

(** A request whose scope holds connection 7 and pool 1. *)
Definition leased_with_pool : World :=
  {| config := set_pool_instance (OPool 1) cfg;
     app_state := {[ "db_pool" := OPool 1 ]};
     scope_state := {[ SESSION_SCOPE_KEY := OConn 7%nat; POOL_SCOPE_KEY := OPool 1 ]};
     events := [] |}.

Definition response_start (status : Z) : Message :=
  {| msg_type := HTTP_RESPONSE_START; msg_status := Some status |}.

Definition http_disconnect : Message :=
  {| msg_type := HTTP_DISCONNECT; msg_status := None |}.

Definition websocket_close : Message :=
  {| msg_type := WEBSOCKET_CLOSE; msg_status := None |}.

End Sample.

(** ** More bookkeeping and scenarios *)

Definition is_transaction_op (e : Event) : bool :=
  match e with
  | EvCommit _ | EvRollback _ => true
  | _ => false
  end.

Definition transaction_ops (w : World) : list Event :=
  filter (fun e => is_transaction_op e = true) (events w).

(** The worlds in which handler [h] cannot get at a release: the scope
    holds no connection, or no pool, or the handler is the autocommit
    one and [asyncio.wait_for] refuses the call. *)
Definition cannot_release (be : Backend) (h : Handler) (w : World) : Prop :=
  truthy (default ONone (scope_state w !! SESSION_SCOPE_KEY)) = false
  \/ (forall p, default ONone (scope_state w !! POOL_SCOPE_KEY) <> OPool p)
  \/ (h = AutocommitHandler /\ wait_for_one_arg be = MissingTimeoutRaises).

Module Scenario.

(** A pool that has no connection to give. *)
Definition failing_acquire : Backend :=
  {| asyncpg_create_pool := fun _ _ => inr (OPool 1);
     pool_acquire := fun _ _ => inl (BackendError 4);
     pool_release := fun _ _ _ => None;
     pool_close := fun _ _ => None;
     conn_has_commit := fun _ => true;
     conn_has_rollback := fun _ => true;
     conn_commit := fun _ _ => None;
     conn_rollback := fun _ _ => None;
     wait_for_one_arg := MissingTimeoutRaises |}.

(** A constructor that hands back [None]. *)
Definition no_pool_built : Backend :=
  {| asyncpg_create_pool := fun _ _ => inr ONone;
     pool_acquire := fun _ _ => inr 7%nat;
     pool_release := fun _ _ _ => None;
     pool_close := fun _ _ => None;
     conn_has_commit := fun _ => true;
     conn_has_rollback := fun _ => true;
     conn_commit := fun _ _ => None;
     conn_rollback := fun _ _ => None;
     wait_for_one_arg := MissingTimeoutRaises |}.

(** A constructor that raises. *)
Definition constructor_fails : Backend :=
  {| asyncpg_create_pool := fun _ _ => inl (BackendError 5);
     pool_acquire := fun _ _ => inr 7%nat;
     pool_release := fun _ _ _ => None;
     pool_close := fun _ _ => None;
     conn_has_commit := fun _ => true;
     conn_has_rollback := fun _ => true;
     conn_commit := fun _ _ => None;
     conn_rollback := fun _ _ => None;
     wait_for_one_arg := MissingTimeoutRaises |}.

(** Neither a pool configuration nor a pool instance. *)
Definition empty_cfg : AsyncpgConfig :=
  {| pool_config := None;
     before_send_handler := DefaultHandler;
     pool_dependency_key := "db_pool";
     session_dependency_key := "db_session";
     pool_app_state_key := "db_pool";
     pool_instance := ONone |}.

Definition unconfigured : World :=
  {| config := empty_cfg; app_state := ∅; scope_state := ∅; events := [] |}.

(** A request, after startup, whose scope was given pool 2 under the
    pool key by some other code, while the application state holds
    pool 1. *)
Definition scope_with_other_pool : World :=
  {| config := set_pool_instance (OPool 1) Sample.cfg;
     app_state := {[ "db_pool" := OPool 1 ]};
     scope_state := {[ POOL_SCOPE_KEY := OPool 2 ]};
     events := [] |}.

Definition response_body : Message :=
  {| msg_type := "http.response.body"; msg_status := None |}.

(** A stock asyncpg pool: every call succeeds, and its connections
    define neither [commit()] nor [rollback()]. *)
Definition stock (wf : WaitFor) : Backend :=
  {| asyncpg_create_pool := fun _ _ => inr (OPool 1);
     pool_acquire := fun _ _ => inr 7%nat;
     pool_release := fun _ _ _ => None;
     pool_close := fun _ _ => None;
     conn_has_commit := fun _ => false;
     conn_has_rollback := fun _ => false;
     conn_commit := fun _ _ => None;
     conn_rollback := fun _ _ => None;
     wait_for_one_arg := wf |}.

End Scenario.

(** * Properties *)

(** ** Basic facts *)

Lemma session_key_not_pool_key : SESSION_SCOPE_KEY ≠ POOL_SCOPE_KEY.
Proof. unfold SESSION_SCOPE_KEY, POOL_SCOPE_KEY. congruence. Qed.

Lemma terminus_types (message : Message) :
  is_terminus message = true <->
  msg_type message = HTTP_RESPONSE_START \/ msg_type message = HTTP_DISCONNECT \/
  msg_type message = WEBSOCKET_DISCONNECT \/ msg_type message = WEBSOCKET_CLOSE.
Proof.
  unfold is_terminus, SESSION_TERMINUS_ASGI_EVENTS.
  rewrite bool_decide_eq_true, !elem_of_union, !elem_of_singleton. tauto.
Qed.

Lemma response_start_is_terminus (message : Message) :
  msg_type message = HTTP_RESPONSE_START -> is_terminus message = true.
Proof. intros H. apply terminus_types. auto. Qed.

Lemma releases_app (w : World) (l : list Event) :
  releases (with_events (events w ++ l) w) =
  (releases w + length (filter (fun e => is_release e = true) l))%nat.
Proof. unfold releases. simpl. rewrite filter_app, length_app. reflexivity. Qed.

(** ** The dependency providers *)

(** What [provide_connection] does on a scope without a connection,
    when the application state holds a pool and the pool answers. *)
Lemma provide_connection_acquires (be : Backend) (w : World) (p c : nat) :
  default ONone (scope_state w !! SESSION_SCOPE_KEY) = ONone ->
  app_state w !! pool_app_state_key (config w) = Some (OPool p) ->
  pool_acquire be p (events w) = inr c ->
  provide_connection be w =
    (Ret (OConn c),
     with_scope_state (<[SESSION_SCOPE_KEY := OConn c]> (scope_state w))
       (with_events (events w ++ [EvAcquire p]) w)).
Proof.
  intros Hs Hp Ha.
  unfold provide_connection, bind, get_litestar_scope_state.
  rewrite Hs. simpl.
  unfold provide_pool, bind, get_config, state_get. rewrite Hp. simpl.
  unfold bind, get_world, log. simpl. rewrite Ha. reflexivity.
Qed.

(** [provide_connection] never writes the pool entry of the scope. *)
Lemma provide_connection_keeps_pool_entry (be : Backend) (w : World) :
  scope_state (snd (provide_connection be w)) !! POOL_SCOPE_KEY =
  scope_state w !! POOL_SCOPE_KEY.
Proof.
  unfold provide_connection, bind, get_litestar_scope_state.
  destruct (is_none (default ONone (scope_state w !! SESSION_SCOPE_KEY))); [|reflexivity].
  unfold provide_pool, bind, get_config, state_get.
  destruct (default ONone (app_state w !! pool_app_state_key (config w))) as [| c | p];
    try reflexivity.
  unfold call_acquire, bind, get_world, log. simpl.
  destruct (pool_acquire be p (events w)) as [e | c]; simpl; [reflexivity|].
  apply lookup_insert_ne, session_key_not_pool_key.
Qed.

Lemma provide_connection_hit (be : Backend) (w : World) (o : Obj) :
  scope_state w !! SESSION_SCOPE_KEY = Some o ->
  is_none o = false ->
  provide_connection be w = (Ret o, w).
Proof.
  intros Hs Hn. unfold provide_connection, bind, get_litestar_scope_state.
  rewrite Hs. simpl. rewrite Hn. reflexivity.
Qed.

(** C8. A scope that already holds a connection gets that same
    connection back from [provide_connection]; the call changes
    nothing, so in particular no [pool.acquire()] is made. *)
Theorem provide_connection_reuses (be : Backend) (w : World) (c : nat) :
  scope_state w !! SESSION_SCOPE_KEY = Some (OConn c) ->
  provide_connection be w = (Ret (OConn c), w).
Proof.
  intros Hs. unfold provide_connection, bind, get_litestar_scope_state.
  rewrite Hs. reflexivity.
Qed.

Lemma provide_connection_reuses_witness :
  provide_connection (Sample.backend MissingTimeoutRaises) Sample.leased =
    (Ret (OConn 7), Sample.leased).
Proof.
  apply (provide_connection_reuses (Sample.backend MissingTimeoutRaises) Sample.leased 7).
  reflexivity.
Defined.

(** Two calls in a row, whatever the scope held before the first: the
    second returns what the first returned and changes nothing. *)
Lemma provide_connection_twice (be : Backend) (w w1 : World) (o : Obj) :
  provide_connection be w = (Ret o, w1) ->
  provide_connection be w1 = (Ret o, w1).
Proof.
  unfold provide_connection at 1. unfold bind, get_litestar_scope_state.
  destruct (default ONone (scope_state w !! SESSION_SCOPE_KEY)) as [| c | p] eqn:Hs; simpl.
  - unfold provide_pool, bind, get_config, state_get.
    destruct (default ONone (app_state w !! pool_app_state_key (config w))) as [| c | p];
      simpl; try discriminate.
    unfold bind, get_world, log. simpl.
    destruct (pool_acquire be p (events w)) as [e | c]; simpl; [discriminate|].
    intros H. injection H as <- <-.
    apply provide_connection_hit; [simpl; apply lookup_insert_eq | reflexivity].
  - intros H. injection H as <- <-.
    unfold provide_connection, bind, get_litestar_scope_state. rewrite Hs. reflexivity.
  - intros H. injection H as <- <-.
    unfold provide_connection, bind, get_litestar_scope_state. rewrite Hs. reflexivity.
Qed.

(** C1. After [on_startup], on an empty scope, [provide_connection]
    acquires connection 7 from pool 1, stores it under the session key
    and returns it, and the scope holds no entry under the pool key. *)
Theorem provide_connection_omits_pool_entry :
  provide_connection (Sample.backend MissingTimeoutRaises) Sample.started =
    (Ret (OConn 7), with_events [EvAcquire 1] Sample.leased)
  /\ scope_state Sample.leased !! SESSION_SCOPE_KEY = Some (OConn 7)
  /\ scope_state Sample.leased !! POOL_SCOPE_KEY = None.
Proof. vm_compute. auto. Qed.

(** C6. Before [on_startup] the application state holds no pool, and
    [provide_pool] returns [None]: it raises nothing, and hands its
    caller a value that is not a pool. *)
Lemma provide_pool_before_startup :
  provide_pool Sample.fresh = (Ret ONone, Sample.fresh)
  /\ ~ (exists e, fst (provide_pool Sample.fresh) = Raise e).
Proof.
  split; [reflexivity|]. intros [e H]. discriminate H.
Qed.

(** The same for every application state without an entry under the
    pool key: the lookup returns [None] and changes nothing. *)
Theorem provide_pool_missing (w : World) :
  app_state w !! pool_app_state_key (config w) = None ->
  provide_pool w = (Ret ONone, w).
Proof.
  intros H. unfold provide_pool, bind, get_config, state_get. simpl.
  rewrite H. reflexivity.
Qed.

Lemma provide_pool_missing_witness :
  provide_pool Sample.fresh = (Ret ONone, Sample.fresh).
Proof. apply (provide_pool_missing Sample.fresh). reflexivity. Defined.

Lemma provide_pool_present (w : World) (o : Obj) :
  app_state w !! pool_app_state_key (config w) = Some o ->
  provide_pool w = (Ret o, w).
Proof.
  intros H. unfold provide_pool, bind, get_config, state_get. simpl.
  rewrite H. reflexivity.
Qed.

(** X10. With no pool in the application state, [provide_connection]
    on a scope without a connection ends in the attribute error of
    [None.acquire], and changes nothing. *)
Lemma provide_connection_before_startup (be : Backend) (w : World) :
  default ONone (scope_state w !! SESSION_SCOPE_KEY) = ONone ->
  app_state w !! pool_app_state_key (config w) = None ->
  provide_connection be w = (Raise (AttributeError "acquire"), w).
Proof.
  intros Hs Hp. unfold provide_connection, bind, get_litestar_scope_state.
  rewrite Hs. simpl.
  unfold provide_pool, bind, get_config, state_get. rewrite Hp. reflexivity.
Qed.

(** ** Startup and shutdown *)

Lemma on_shutdown_missing_key (be : Backend) (w : World) :
  app_state w !! pool_app_state_key (config w) = None ->
  on_shutdown be w = (Raise (KeyError (pool_app_state_key (config w))), w).
Proof.
  intros H. unfold on_shutdown, bind, get_config, state_pop. simpl.
  rewrite H. reflexivity.
Qed.

Lemma on_shutdown_closes (be : Backend) (w : World) (p : nat) :
  app_state w !! pool_app_state_key (config w) = Some (OPool p) ->
  pool_close be p (events w) = None ->
  on_shutdown be w =
    (Ret tt,
     with_events (events w ++ [EvClose p])
       (with_app_state (delete (pool_app_state_key (config w)) (app_state w)) w)).
Proof.
  intros H Hc. unfold on_shutdown, bind, get_config, state_pop. simpl.
  rewrite H. simpl. unfold bind, get_world, log. simpl. rewrite Hc. reflexivity.
Qed.

(** C7. On an application whose state never received a pool,
    [on_shutdown] raises [KeyError] at [state.pop]. *)
Theorem on_shutdown_without_pool_raises :
  on_shutdown (Sample.backend MissingTimeoutRaises) Sample.fresh =
    (Raise (KeyError "db_pool"), Sample.fresh).
Proof. reflexivity. Qed.

(** ** [create_pool] *)

Lemma create_pool_hit (be : Backend) (w : World) :
  is_none (pool_instance (config w)) = false ->
  create_pool be w = (Ret (pool_instance (config w)), w).
Proof.
  intros H. unfold create_pool, bind, get_config. simpl. rewrite H. reflexivity.
Qed.

Lemma create_pool_success (be : Backend) (w0 w : World) (o : Obj) :
  create_pool be w0 = (Ret o, w) ->
  pool_instance (config w) = o /\ is_none o = false.
Proof.
  unfold create_pool, bind, get_config. simpl.
  destruct (is_none (pool_instance (config w0))) eqn:Hn; simpl.
  - destruct (pool_config (config w0)) as [pc |] eqn:Hpc; [|discriminate].
    unfold pool_config_dict, bind, get_config. simpl. rewrite Hpc. simpl.
    unfold call_create_pool, bind, get_world, log. simpl.
    destruct (asyncpg_create_pool be (simple_asdict pc) (events w0)) as [e | created];
      simpl; [discriminate|].
    destruct (is_none created) eqn:Hc; simpl; [discriminate|].
    intros H. injection H as <- <-. simpl. auto.
  - intros H. injection H as <- <-. auto.
Qed.

Lemma call_n_fixed {A} (m : M A) (w : World) (r : Result A) :
  m w = (r, w) -> forall n, call_n n m w = (replicate n r, w).
Proof.
  intros H n. induction n as [| n IH]; simpl; [reflexivity|].
  rewrite H, IH. reflexivity.
Qed.

(** C10. Once a call of [create_pool] has succeeded, or when the
    configuration came with a pool instance, every later call returns
    that same pool and leaves the world as it is: the log of calls does
    not grow, so the pool constructor is not invoked again. *)
Theorem create_pool_cached (be : Backend) (w0 w : World) (o : Obj) :
  create_pool be w0 = (Ret o, w)
  \/ (w = w0 /\ pool_instance (config w0) = o /\ o <> ONone) ->
  forall n, call_n n (create_pool be) w = (replicate n (Ret o), w).
Proof.
  intros H. apply call_n_fixed.
  assert (Hset : pool_instance (config w) = o /\ is_none o = false).
  { destruct H as [H | (-> & Hi & Ho)].
    - exact (create_pool_success be w0 w o H).
    - split; [exact Hi|]. destruct o; [contradiction | reflexivity | reflexivity]. }
  destruct Hset as [Hi Hn]. rewrite <- Hi in *. apply create_pool_hit, Hn.
Qed.

Lemma create_pool_cached_witness :
  call_n 3 (create_pool (Sample.backend MissingTimeoutRaises))
    (snd (create_pool (Sample.backend MissingTimeoutRaises) Sample.fresh)) =
  (replicate 3 (Ret (OPool 1)),
   snd (create_pool (Sample.backend MissingTimeoutRaises) Sample.fresh)).
Proof.
  apply (create_pool_cached (Sample.backend MissingTimeoutRaises) Sample.fresh).
  left. reflexivity.
Defined.

(** The first call on a configuration without an instance does invoke
    the constructor, once, with the keyword arguments of the pool
    configuration. *)
Lemma create_pool_first_call :
  create_pool (Sample.backend MissingTimeoutRaises) Sample.fresh =
    (Ret (OPool 1),
     with_events [EvCreatePool (simple_asdict Sample.pool_cfg)]
       (with_config (set_pool_instance (OPool 1) Sample.cfg) Sample.fresh)).
Proof. reflexivity. Qed.

(** [on_startup] on the sample configuration builds pool 1 and stores
    it in the application state. *)
Lemma on_startup_sample :
  on_startup (Sample.backend MissingTimeoutRaises) Sample.fresh =
    (Ret tt,
     with_events [EvCreatePool (simple_asdict Sample.pool_cfg)] Sample.started).
Proof. vm_compute. reflexivity. Qed.

(** Once [on_startup] has returned, [provide_pool] finds a pool. *)
Lemma provide_pool_after_startup (be : Backend) (w w1 : World) :
  on_startup be w = (Ret tt, w1) ->
  exists o, is_none o = false /\ provide_pool w1 = (Ret o, w1).
Proof.
  unfold on_startup, update_app_state, create_app_state_items, bind, get_config.
  simpl. destruct (create_pool be w) as [[o |e] w'] eqn:Hc; simpl; [|discriminate].
  unfold state_update. intros H. injection H as <-.
  destruct (create_pool_success be w w' o Hc) as [_ Hn].
  exists o. split; [exact Hn|].
  apply provide_pool_present. simpl.
  assert (Hkey : pool_app_state_key (config w') = pool_app_state_key (config w)).
  { revert Hc. unfold create_pool, bind, get_config. simpl.
    destruct (is_none (pool_instance (config w))); simpl.
    - destruct (pool_config (config w)) as [pc |] eqn:Hpc; [|discriminate].
      unfold pool_config_dict, bind, get_config. simpl. rewrite Hpc. simpl.
      unfold call_create_pool, bind, get_world, log. simpl.
      destruct (asyncpg_create_pool be (simple_asdict pc) (events w)) as [e | created];
        simpl; [discriminate|].
      destruct (is_none created); simpl; [discriminate|].
      intros H. injection H as _ <-. reflexivity.
    - intros H. injection H as _ <-. reflexivity. }
  rewrite Hkey. apply lookup_union_Some_l, lookup_singleton_eq.
Qed.

(** ** The plain policy *)

Lemma default_handler_skips (be : Backend) (message : Message) (w : World) :
  truthy (default ONone (scope_state w !! POOL_SCOPE_KEY))
  && truthy (default ONone (scope_state w !! SESSION_SCOPE_KEY))
  && is_terminus message = false ->
  default_before_send_handler be message w = (Ret tt, w).
Proof.
  intros H. unfold default_before_send_handler, bind, get_litestar_scope_state.
  rewrite H. reflexivity.
Qed.

Lemma default_handler_releases (be : Backend) (message : Message) (w : World)
    (session : Obj) (p : nat) :
  scope_state w !! SESSION_SCOPE_KEY = Some session ->
  truthy session = true ->
  scope_state w !! POOL_SCOPE_KEY = Some (OPool p) ->
  is_terminus message = true ->
  default_before_send_handler be message w =
    match pool_release be p session (events w) with
    | None =>
        (Ret tt,
         with_scope_state (delete SESSION_SCOPE_KEY (scope_state w))
           (with_events (events w ++ [EvRelease p session]) w))
    | Some e => (Raise e, with_events (events w ++ [EvRelease p session]) w)
    end.
Proof.
  intros Hs Hn Hp Ht. unfold default_before_send_handler, bind, get_litestar_scope_state.
  rewrite Hs, Hp, Ht. simpl. rewrite Hn. simpl.
  unfold release_body, bind, get_world, log. simpl.
  destruct (pool_release be p session (events w)) as [e |]; simpl; [reflexivity|].
  unfold delete_litestar_scope_state. simpl. rewrite Hs. reflexivity.
Qed.

(** C2, as stated, fails: connection 7 is released to pool 1 and the
    session entry is cleared, but the pool entry is still in the scope. *)
Lemma default_handler_keeps_pool_entry :
  default_before_send_handler (Sample.backend MissingTimeoutRaises)
    Sample.http_disconnect Sample.leased_with_pool =
    (Ret tt,
     with_scope_state {[ POOL_SCOPE_KEY := OPool 1 ]}
       (with_events [EvRelease 1 (OConn 7)] Sample.leased_with_pool))
  /\ ~ (({[ POOL_SCOPE_KEY := OPool 1 ]} : gmap string Obj) !! SESSION_SCOPE_KEY = None
        /\ ({[ POOL_SCOPE_KEY := OPool 1 ]} : gmap string Obj) !! POOL_SCOPE_KEY = None).
Proof.
  split; [vm_compute; reflexivity|].
  intros [_ H]. vm_compute in H. discriminate H.
Qed.

(** C2, amended. On a terminus message, for a scope [w] that holds a
    connection and its pool, the plain policy calls [pool.release] on
    the connection; when the call returns it clears the session entry
    (when it raises, the entry stays), and the pool entry stays in the
    scope either way.  For a scope [w0] without a connection it does
    nothing at all. *)
Theorem default_handler_terminus (be : Backend) (message : Message)
    (w w0 : World) (c p : nat) :
  scope_state w !! SESSION_SCOPE_KEY = Some (OConn c) ->
  scope_state w !! POOL_SCOPE_KEY = Some (OPool p) ->
  is_terminus message = true ->
  default ONone (scope_state w0 !! SESSION_SCOPE_KEY) = ONone ->
  default_before_send_handler be message w =
    match pool_release be p (OConn c) (events w) with
    | None =>
        (Ret tt,
         with_scope_state (delete SESSION_SCOPE_KEY (scope_state w))
           (with_events (events w ++ [EvRelease p (OConn c)]) w))
    | Some e => (Raise e, with_events (events w ++ [EvRelease p (OConn c)]) w)
    end
  /\ scope_state (snd (default_before_send_handler be message w)) !! POOL_SCOPE_KEY
     = Some (OPool p)
  /\ default_before_send_handler be message w0 = (Ret tt, w0).
Proof.
  intros Hs Hp Ht H0.
  rewrite (default_handler_releases be message w (OConn c) p Hs eq_refl Hp Ht).
  split; [reflexivity|]. split.
  - destruct (pool_release be p (OConn c) (events w)); simpl; [exact Hp|].
    rewrite lookup_delete_ne by apply session_key_not_pool_key. exact Hp.
  - apply default_handler_skips. rewrite H0. simpl.
    rewrite andb_false_r. reflexivity.
Qed.

Lemma default_handler_terminus_witness :
  default_before_send_handler (Sample.backend MissingTimeoutRaises)
    Sample.websocket_close Sample.leased_with_pool =
    (Ret tt,
     with_scope_state (delete SESSION_SCOPE_KEY (scope_state Sample.leased_with_pool))
       (with_events [EvRelease 1 (OConn 7)] Sample.leased_with_pool))
  /\ scope_state
       (snd (default_before_send_handler (Sample.backend MissingTimeoutRaises)
               Sample.websocket_close Sample.leased_with_pool)) !! POOL_SCOPE_KEY
     = Some (OPool 1)
  /\ default_before_send_handler (Sample.backend MissingTimeoutRaises)
       Sample.websocket_close Sample.started = (Ret tt, Sample.started).
Proof.
  apply (default_handler_terminus (Sample.backend MissingTimeoutRaises)
           Sample.websocket_close Sample.leased_with_pool Sample.started 7 1);
    reflexivity.
Defined.

(** Without a pool entry in the scope the plain policy never releases:
    the lease that [provide_connection] records stays where it is. *)
Lemma default_handler_without_pool_entry (be : Backend) (message : Message)
    (w : World) :
  scope_state w !! POOL_SCOPE_KEY = None ->
  default_before_send_handler be message w = (Ret tt, w).
Proof.
  intros H. apply default_handler_skips. rewrite H. reflexivity.
Qed.

Lemma lease_from_provider_is_not_released (be : Backend) (message : Message) :
  default_before_send_handler be message Sample.leased = (Ret tt, Sample.leased).
Proof. apply default_handler_without_pool_entry. reflexivity. Qed.

(** ** The autocommit policy *)

Lemma with_events_same (w : World) : with_events (events w) w = w.
Proof. destruct w; reflexivity. Qed.

(** The [try] suite on a connection and a response-start message: one
    call, [commit()] or [rollback()] by the status, whose outcome is
    the outcome of the suite. *)
Lemma commit_or_rollback_conn (be : Backend) (c : nat) (message : Message)
    (status : Z) (w : World) :
  conn_has_commit be c = true ->
  conn_has_rollback be c = true ->
  msg_type message = HTTP_RESPONSE_START ->
  msg_status message = Some status ->
  commit_or_rollback be (OConn c) message w =
    if bool_decide (200 <= status < 300)%Z then
      (match conn_commit be c (events w) with Some e => Raise e | None => Ret tt end,
       with_events (events w ++ [EvCommit c]) w)
    else
      (match conn_rollback be c (events w) with Some e => Raise e | None => Ret tt end,
       with_events (events w ++ [EvRollback c]) w).
Proof.
  intros Hhc Hhr Ht Hst.
  unfold commit_or_rollback, message_status. rewrite Ht, Hst. simpl.
  unfold bind, ret. case_bool_decide as Hr.
  - replace ((200 <=? status)%Z && (status <? 300)%Z) with true
      by (symmetry; apply andb_true_intro; split; [apply Z.leb_le | apply Z.ltb_lt]; lia).
    unfold call_commit. rewrite Hhc. unfold bind, get_world, log. simpl.
    destruct (conn_commit be c (events w)); reflexivity.
  - replace ((200 <=? status)%Z && (status <? 300)%Z) with false.
    + unfold call_rollback. rewrite Hhr. unfold bind, get_world, log. simpl.
      destruct (conn_rollback be c (events w)); reflexivity.
    + symmetry. apply andb_false_iff.
      destruct (Z.leb_spec 200 status); [|auto].
      destruct (Z.ltb_spec status 300); [|auto]. lia.
Qed.

(** The [try] suite only ever adds to the log, and never a call on a pool. *)
Lemma commit_or_rollback_frame (be : Backend) (session : Obj) (message : Message)
    (w : World) :
  exists l,
    snd (commit_or_rollback be session message w) = with_events (events w ++ l) w
    /\ filter (fun e => is_release e = true) l = []
    /\ filter (fun e => is_pool_op e = true) l = [].
Proof.
  unfold commit_or_rollback.
  destruct (negb (is_none session) && String.eqb (msg_type message) HTTP_RESPONSE_START).
  2:{ exists []. rewrite app_nil_r, with_events_same. auto. }
  unfold message_status, bind.
  destruct (msg_status message) as [status |]; simpl.
  2:{ exists []. rewrite app_nil_r, with_events_same. auto. }
  destruct ((200 <=? status)%Z && (status <? 300)%Z).
  - destruct session as [| c | p]; simpl;
      try (exists []; rewrite app_nil_r, with_events_same; auto; fail).
    destruct (conn_has_commit be c);
      [|exists []; rewrite app_nil_r, with_events_same; auto].
    exists [EvCommit c]. unfold bind, get_world, log. simpl.
    destruct (conn_commit be c (events w)); simpl; auto.
  - destruct session as [| c | p]; simpl;
      try (exists []; rewrite app_nil_r, with_events_same; auto; fail).
    destruct (conn_has_rollback be c);
      [|exists []; rewrite app_nil_r, with_events_same; auto].
    exists [EvRollback c]. unfold bind, get_world, log. simpl.
    destruct (conn_rollback be c (events w)); simpl; auto.
Qed.

(** The [finally] suite, case by case. *)
Lemma release_on_terminus_skips (be : Backend) (session pool : Obj)
    (message : Message) (w : World) :
  truthy session && is_terminus message = false ->
  release_on_terminus be session pool message w = (Ret tt, w).
Proof. intros H. unfold release_on_terminus. rewrite H. reflexivity. Qed.

Lemma release_on_terminus_no_pool (be : Backend) (session pool : Obj)
    (message : Message) (w : World) :
  truthy session && is_terminus message = true ->
  (forall p, pool <> OPool p) ->
  release_on_terminus be session pool message w = (Raise (AttributeError "release"), w).
Proof.
  intros H Hp. unfold release_on_terminus. rewrite H.
  destruct pool as [| c | p]; try reflexivity. destruct (Hp p eq_refl).
Qed.

Lemma release_on_terminus_missing_timeout (be : Backend) (session : Obj) (p : nat)
    (message : Message) (w : World) :
  truthy session && is_terminus message = true ->
  wait_for_one_arg be = MissingTimeoutRaises ->
  release_on_terminus be session (OPool p) message w =
    (Raise (TypeError "wait_for() missing 1 required positional argument: 'timeout'"), w).
Proof.
  intros H Hwf. unfold release_on_terminus. rewrite H.
  unfold call_release, bind, ret, asyncio_wait_for_one_arg. rewrite Hwf. reflexivity.
Qed.

Lemma release_on_terminus_awaited (be : Backend) (session : Obj) (p : nat)
    (message : Message) (w : World) :
  truthy session && is_terminus message = true ->
  wait_for_one_arg be = AwaitsUnbounded ->
  scope_state w !! SESSION_SCOPE_KEY = Some session ->
  release_on_terminus be session (OPool p) message w =
    match pool_release be p session (events w) with
    | None =>
        (Ret tt,
         with_scope_state (delete SESSION_SCOPE_KEY (scope_state w))
           (with_events (events w ++ [EvRelease p session]) w))
    | Some e => (Raise e, with_events (events w ++ [EvRelease p session]) w)
    end.
Proof.
  intros H Hwf Hs. unfold release_on_terminus. rewrite H.
  unfold call_release, bind, ret, asyncio_wait_for_one_arg. rewrite Hwf.
  unfold release_body, bind, get_world, log. simpl.
  destruct (pool_release be p session (events w)); simpl; [reflexivity|].
  unfold delete_litestar_scope_state. simpl. rewrite Hs. reflexivity.
Qed.

(** Neither policy does anything on a scope without a connection. *)
Lemma handler_without_session (be : Backend) (h : Handler) (message : Message)
    (w : World) :
  default ONone (scope_state w !! SESSION_SCOPE_KEY) = ONone ->
  run_handler be h message w = (Ret tt, w).
Proof.
  intros H. destruct h; simpl.
  - apply default_handler_skips. rewrite H. simpl. rewrite andb_false_r. reflexivity.
  - unfold autocommit_before_send_handler, bind, get_litestar_scope_state.
    rewrite H. reflexivity.
Qed.

Lemma default_handler_without_session (be : Backend) (message : Message) (w : World) :
  default ONone (scope_state w !! SESSION_SCOPE_KEY) = ONone ->
  default_before_send_handler be message w = (Ret tt, w).
Proof. exact (handler_without_session be DefaultHandler message w). Qed.

Lemma autocommit_handler_without_session (be : Backend) (message : Message)
    (w : World) :
  default ONone (scope_state w !! SESSION_SCOPE_KEY) = ONone ->
  autocommit_before_send_handler be message w = (Ret tt, w).
Proof. exact (handler_without_session be AutocommitHandler message w). Qed.

Lemma truthy_lookup (m : gmap string Obj) (key : string) :
  truthy (default ONone (m !! key)) = true ->
  m !! key = Some (default ONone (m !! key)).
Proof. destruct (m !! key); simpl; [reflexivity | discriminate]. Qed.

(** For a connection whose class does define [commit()] and
    [rollback()]: on a response-start message the autocommit policy
    first calls [commit()] when the status lies in [200, 300) and
    [rollback()] when it does not; whatever else it calls for that
    message comes after, and is at most one release of that
    connection. *)
Lemma autocommit_branch_by_status (be : Backend) (w : World) (c : nat)
    (message : Message) (status : Z) :
  conn_has_commit be c = true ->
  conn_has_rollback be c = true ->
  scope_state w !! SESSION_SCOPE_KEY = Some (OConn c) ->
  msg_type message = HTTP_RESPONSE_START ->
  msg_status message = Some status ->
  exists rest,
    events (snd (autocommit_before_send_handler be message w)) =
      events w
      ++ (if bool_decide (200 <= status < 300)%Z then EvCommit c else EvRollback c)
         :: rest
    /\ (rest = [] \/ exists p, rest = [EvRelease p (OConn c)]).
Proof.
  intros Hhc Hhr Hs Ht Hst.
  pose proof (response_start_is_terminus message Ht) as Hterm.
  unfold autocommit_before_send_handler, bind, get_litestar_scope_state.
  rewrite Hs. simpl. unfold try_finally.
  rewrite (commit_or_rollback_conn be c message status w Hhc Hhr Ht Hst).
  set (first := if bool_decide (200 <= status < 300)%Z then EvCommit c else EvRollback c).
  set (wb := with_events (events w ++ [first]) w).
  assert (Hbody : exists r,
             (if bool_decide (200 <= status < 300)%Z
              then (match conn_commit be c (events w) with
                    | Some e => Raise e | None => Ret tt end,
                    with_events (events w ++ [EvCommit c]) w)
              else (match conn_rollback be c (events w) with
                    | Some e => Raise e | None => Ret tt end,
                    with_events (events w ++ [EvRollback c]) w)) = (r, wb)).
  { subst wb first. case_bool_decide; eexists; reflexivity. }
  destruct Hbody as [r ->].
  assert (Hfin : truthy (OConn c) && is_terminus message = true)
    by (rewrite Hterm; reflexivity).
  destruct (default ONone (scope_state w !! POOL_SCOPE_KEY)) as [| c' | p] eqn:Hp.
  - rewrite release_on_terminus_no_pool by (exact Hfin || discriminate).
    exists []. split; [reflexivity | auto].
  - rewrite release_on_terminus_no_pool by (exact Hfin || discriminate).
    exists []. split; [reflexivity | auto].
  - destruct (wait_for_one_arg be) eqn:Hwf.
    + rewrite release_on_terminus_missing_timeout by assumption.
      exists []. split; [reflexivity | auto].
    + rewrite (release_on_terminus_awaited be (OConn c) p message wb Hfin Hwf Hs).
      exists [EvRelease p (OConn c)].
      split; [|right; exists p; reflexivity].
      destruct (pool_release be p (OConn c) (events wb)); subst wb; simpl;
        rewrite <- app_assoc; reflexivity.
Qed.


(** The three statuses of the specification, on a scope that holds
    such a connection and its pool, when awaiting the release goes
    through. *)
Example autocommit_status_204 :
  events (snd (autocommit_before_send_handler (Sample.backend AwaitsUnbounded)
                 (Sample.response_start 204) Sample.leased_with_pool)) =
  [EvCommit 7; EvRelease 1 (OConn 7)].
Proof. reflexivity. Qed.

Example autocommit_status_404 :
  events (snd (autocommit_before_send_handler (Sample.backend AwaitsUnbounded)
                 (Sample.response_start 404) Sample.leased_with_pool)) =
  [EvRollback 7; EvRelease 1 (OConn 7)].
Proof. reflexivity. Qed.

Example autocommit_status_101 :
  events (snd (autocommit_before_send_handler (Sample.backend AwaitsUnbounded)
                 (Sample.response_start 101) Sample.leased_with_pool)) =
  [EvRollback 7; EvRelease 1 (OConn 7)].
Proof. reflexivity. Qed.

(** When [asyncio.wait_for] insists on its [timeout] argument, the
    autocommit policy never gets as far as a release. *)
Lemma autocommit_missing_timeout_never_releases (be : Backend) (message : Message)
    (w : World) :
  wait_for_one_arg be = MissingTimeoutRaises ->
  releases (snd (autocommit_before_send_handler be message w)) = releases w.
Proof.
  intros Hwf. unfold autocommit_before_send_handler, bind, get_litestar_scope_state.
  simpl. unfold try_finally.
  set (session := default ONone (scope_state w !! SESSION_SCOPE_KEY)).
  set (pool := default ONone (scope_state w !! POOL_SCOPE_KEY)).
  destruct (commit_or_rollback_frame be session message w) as (l & Hw & Hl & _).
  destruct (commit_or_rollback be session message w) as [r wb]. simpl in Hw. subst wb.
  assert (Hrel : releases (with_events (events w ++ l) w) = releases w).
  { rewrite releases_app, Hl. simpl. lia. }
  destruct (truthy session && is_terminus message) eqn:Hc.
  - destruct pool as [| c | p].
    + rewrite release_on_terminus_no_pool by (exact Hc || discriminate). exact Hrel.
    + rewrite release_on_terminus_no_pool by (exact Hc || discriminate). exact Hrel.
    + rewrite release_on_terminus_missing_timeout by assumption. exact Hrel.
  - rewrite release_on_terminus_skips by exact Hc. exact Hrel.
Qed.

(** Where the awaitable is awaited and the scope holds the pool, the
    [finally] suite does what it is there for: [commit()] raises, the
    release is made once all the same, and the exception goes on. *)
Lemma autocommit_finally_when_awaited :
  autocommit_before_send_handler (Sample.failing_commit AwaitsUnbounded)
    (Sample.response_start 204) Sample.leased_with_pool =
    (Raise (BackendError 1),
     with_scope_state {[ POOL_SCOPE_KEY := OPool 1 ]}
       (with_events [EvCommit 7; EvRelease 1 (OConn 7)] Sample.leased_with_pool)).
Proof. vm_compute. reflexivity. Qed.

(** C4. [commit()] raises while the autocommit policy handles a
    response-start message.  On the scope as [provide_connection]
    leaves it (a connection, no pool entry) the [finally] suite ends in
    the attribute error of [None.release], under either reading of
    [asyncio.wait_for]; on a scope that does hold the pool, the call of
    [asyncio.wait_for] without a timeout raises [TypeError].  In each
    case no release is made and the connection stays in the scope. *)
Theorem autocommit_commit_failure_skips_release :
  (forall wf,
     autocommit_before_send_handler (Sample.failing_commit wf)
       (Sample.response_start 204) Sample.leased =
       (Raise (AttributeError "release"), with_events [EvCommit 7] Sample.leased))
  /\ autocommit_before_send_handler (Sample.failing_commit MissingTimeoutRaises)
       (Sample.response_start 204) Sample.leased_with_pool =
       (Raise (TypeError "wait_for() missing 1 required positional argument: 'timeout'"),
        with_events [EvCommit 7] Sample.leased_with_pool)
  /\ releases (with_events [EvCommit 7] Sample.leased) = 0%nat
  /\ releases (with_events [EvCommit 7] Sample.leased_with_pool) = 0%nat.
Proof.
  split; [intros []; reflexivity|].
  split; [reflexivity|]. split; reflexivity.
Qed.

(** C5. On a terminus message, for a scope that holds a connection and
    its pool, the autocommit policy passes [asyncio.wait_for] the
    release and nothing else.  With the [timeout] argument required the
    call raises [TypeError], no release is made and the connection
    stays in the scope; were the awaitable simply awaited, the release
    would run with no bound on the wait. *)
Theorem autocommit_release_without_timeout :
  autocommit_before_send_handler (Sample.backend MissingTimeoutRaises)
    Sample.http_disconnect Sample.leased_with_pool =
    (Raise (TypeError "wait_for() missing 1 required positional argument: 'timeout'"),
     Sample.leased_with_pool)
  /\ autocommit_before_send_handler (Sample.backend AwaitsUnbounded)
       Sample.http_disconnect Sample.leased_with_pool =
       (Ret tt,
        with_scope_state {[ POOL_SCOPE_KEY := OPool 1 ]}
          (with_events [EvRelease 1 (OConn 7)] Sample.leased_with_pool)).
Proof. split; vm_compute; reflexivity. Qed.

(** ** No double release *)

(** When a handler has returned from a terminus message, a second
    terminus message for that scope changes nothing: no call is made on
    the pool, and over the two messages the release count has grown by
    at most one. *)
Lemma second_terminus_is_noop (be : Backend) (h : Handler) (m1 m2 : Message)
    (w w1 : World) :
  is_terminus m1 = true ->
  is_terminus m2 = true ->
  run_handler be h m1 w = (Ret tt, w1) ->
  run_handler be h m2 w1 = (Ret tt, w1) /\ (releases w1 <= releases w + 1)%nat.
Proof.
  intros Ht1 Ht2 Hrun.
  destruct (truthy (default ONone (scope_state w !! SESSION_SCOPE_KEY))) eqn:Hs.
  2:{ assert (Hn : default ONone (scope_state w !! SESSION_SCOPE_KEY) = ONone)
        by (destruct (default ONone (scope_state w !! SESSION_SCOPE_KEY));
            [reflexivity | discriminate | discriminate]).
      rewrite (handler_without_session be h m1 w Hn) in Hrun.
      injection Hrun as <-. split; [|lia].
      apply handler_without_session, Hn. }
  pose proof (truthy_lookup _ _ Hs) as Hlook.
  set (session := default ONone (scope_state w !! SESSION_SCOPE_KEY)) in *.
  assert (Hgone : forall l,
            default ONone
              (scope_state
                 (with_scope_state (delete SESSION_SCOPE_KEY (scope_state w))
                    (with_events l w)) !! SESSION_SCOPE_KEY) = ONone).
  { intros l. simpl. rewrite lookup_delete_eq. reflexivity. }
  destruct h; simpl in Hrun |- *.
  - (* the plain policy *)
    destruct (default ONone (scope_state w !! POOL_SCOPE_KEY)) as [| c | p] eqn:Hp.
    + rewrite default_handler_skips in Hrun by (rewrite Hp; reflexivity).
      injection Hrun as <-. split; [|lia].
      apply default_handler_skips. rewrite Hp. reflexivity.
    + unfold default_before_send_handler, bind, get_litestar_scope_state in Hrun.
      rewrite Hp in Hrun. fold session in Hrun. rewrite Hs, Ht1 in Hrun.
      discriminate Hrun.
    + assert (Hpl : scope_state w !! POOL_SCOPE_KEY = Some (OPool p)).
      { destruct (scope_state w !! POOL_SCOPE_KEY) as [o |]; simpl in Hp;
          [congruence | discriminate]. }
      rewrite (default_handler_releases be m1 w session p Hlook Hs Hpl Ht1) in Hrun.
      destruct (pool_release be p session (events w)); [discriminate|].
      injection Hrun as <-. split.
      * apply (handler_without_session be DefaultHandler), Hgone.
      * unfold releases. simpl. rewrite filter_app, length_app. simpl.
        destruct (decide (is_release (EvRelease p session) = true)); simpl; lia.
  - (* the autocommit policy *)
    unfold autocommit_before_send_handler, bind, get_litestar_scope_state in Hrun.
    simpl in Hrun. fold session in Hrun. unfold try_finally in Hrun.
    destruct (commit_or_rollback_frame be session m1 w) as (l & Hw & Hl & _).
    destruct (commit_or_rollback be session m1 w) as [r wb]. simpl in Hw. subst wb.
    assert (Hc : truthy session && is_terminus m1 = true) by (rewrite Hs, Ht1; reflexivity).
    destruct (default ONone (scope_state w !! POOL_SCOPE_KEY)) as [| c | p].
    + rewrite release_on_terminus_no_pool in Hrun by (exact Hc || discriminate).
      discriminate Hrun.
    + rewrite release_on_terminus_no_pool in Hrun by (exact Hc || discriminate).
      discriminate Hrun.
    + destruct (wait_for_one_arg be) eqn:Hwf.
      * rewrite release_on_terminus_missing_timeout in Hrun by assumption.
        discriminate Hrun.
      * rewrite (release_on_terminus_awaited be session p m1
                   (with_events (events w ++ l) w) Hc Hwf Hlook) in Hrun.
        destruct (pool_release be p session (events (with_events (events w ++ l) w)));
          [discriminate|].
        injection Hrun as -> <-. split.
        -- apply (handler_without_session be AutocommitHandler). simpl.
           rewrite lookup_delete_eq. reflexivity.
        -- unfold releases. simpl. rewrite !filter_app, !length_app, Hl. simpl.
           destruct (decide (is_release (EvRelease p session) = true)); simpl; lia.
Qed.


(** X1. A scope that never acquired a connection: whatever messages
    arrive, and in whatever number, neither policy calls anything or
    changes anything. *)
Lemma handle_all_without_session (be : Backend) (h : Handler)
    (messages : list Message) (w : World) :
  default ONone (scope_state w !! SESSION_SCOPE_KEY) = ONone ->
  handle_all (run_handler be h) messages w = w.
Proof.
  intros H. induction messages as [| message rest IH]; simpl; [reflexivity|].
  rewrite (handler_without_session be h message w H). exact IH.
Qed.

Lemma default_handler_bad_pool (be : Backend) (message : Message) (w : World)
    (c : nat) :
  default ONone (scope_state w !! POOL_SCOPE_KEY) = OConn c ->
  truthy (default ONone (scope_state w !! SESSION_SCOPE_KEY)) = true ->
  is_terminus message = true ->
  default_before_send_handler be message w = (Raise (AttributeError "release"), w).
Proof.
  intros Hp Hs Ht. unfold default_before_send_handler, bind, get_litestar_scope_state.
  rewrite Hp, Hs, Ht. reflexivity.
Qed.

(** As long as the [finally] suite cannot get at a release (no pool in
    the scope, or [asyncio.wait_for] refusing the call), the autocommit
    policy adds nothing but commits and rollbacks to the log. *)
Lemma autocommit_unreleased (be : Backend) (message : Message) (w : World) :
  (forall p, default ONone (scope_state w !! POOL_SCOPE_KEY) <> OPool p)
  \/ wait_for_one_arg be = MissingTimeoutRaises ->
  exists l,
    snd (autocommit_before_send_handler be message w) = with_events (events w ++ l) w
    /\ filter (fun e => is_release e = true) l = []
    /\ filter (fun e => is_pool_op e = true) l = [].
Proof.
  intros Hno. unfold autocommit_before_send_handler, bind, get_litestar_scope_state.
  simpl. unfold try_finally.
  set (session := default ONone (scope_state w !! SESSION_SCOPE_KEY)).
  destruct (commit_or_rollback_frame be session message w) as (l & Hw & Hl & Hl').
  destruct (commit_or_rollback be session message w) as [r wb]. simpl in Hw. subst wb.
  exists l. split; [|auto].
  destruct (truthy session && is_terminus message) eqn:Hc.
  2:{ rewrite release_on_terminus_skips by exact Hc. reflexivity. }
  destruct (default ONone (scope_state w !! POOL_SCOPE_KEY)) as [| c | p] eqn:Hp.
  - rewrite release_on_terminus_no_pool by (exact Hc || discriminate). reflexivity.
  - rewrite release_on_terminus_no_pool by (exact Hc || discriminate). reflexivity.
  - destruct Hno as [Hno | Hwf]; [destruct (Hno p eq_refl)|].
    rewrite release_on_terminus_missing_timeout by assumption. reflexivity.
Qed.

Lemma pool_ops_app (w : World) (l : list Event) :
  filter (fun e => is_pool_op e = true) l = [] ->
  pool_ops (with_events (events w ++ l) w) = pool_ops w.
Proof.
  intros H. unfold pool_ops. simpl. rewrite filter_app, H. apply app_nil_r.
Qed.

(** X2. On a pool whose [release] returns, two terminus messages in a row
    make at most one release between them, and the second makes no call
    on the pool, whether or not the handler itself returned (a failed
    commit, a missing pool entry, a refused [asyncio.wait_for]). *)
Lemma no_double_release (be : Backend) (h : Handler) (m1 m2 : Message) (w : World) :
  (forall p session log, pool_release be p session log = None) ->
  is_terminus m1 = true ->
  is_terminus m2 = true ->
  pool_ops (snd (run_handler be h m2 (snd (run_handler be h m1 w)))) =
    pool_ops (snd (run_handler be h m1 w))
  /\ (releases (snd (run_handler be h m2 (snd (run_handler be h m1 w))))
      <= releases w + 1)%nat.
Proof.
  intros Hrel Ht1 Ht2.
  destruct (truthy (default ONone (scope_state w !! SESSION_SCOPE_KEY))) eqn:Hs.
  2:{ assert (Hn : default ONone (scope_state w !! SESSION_SCOPE_KEY) = ONone)
        by (destruct (default ONone (scope_state w !! SESSION_SCOPE_KEY));
            [reflexivity | discriminate | discriminate]).
      rewrite (handler_without_session be h m1 w Hn). simpl.
      rewrite (handler_without_session be h m2 w Hn). simpl. split; [reflexivity | lia]. }
  pose proof (truthy_lookup _ _ Hs) as Hlook.
  set (session := default ONone (scope_state w !! SESSION_SCOPE_KEY)) in *.
  destruct h; simpl.
  - (* the plain policy *)
    destruct (default ONone (scope_state w !! POOL_SCOPE_KEY)) as [| c | p] eqn:Hp.
    + rewrite (default_handler_skips be m1 w) by (rewrite Hp; reflexivity). simpl.
      rewrite (default_handler_skips be m2 w) by (rewrite Hp; reflexivity). simpl.
      split; [reflexivity | lia].
    + fold session in Hs.
      rewrite (default_handler_bad_pool be m1 w c Hp Hs Ht1). simpl.
      rewrite (default_handler_bad_pool be m2 w c Hp Hs Ht2). simpl.
      split; [reflexivity | lia].
    + assert (Hpl : scope_state w !! POOL_SCOPE_KEY = Some (OPool p)).
      { destruct (scope_state w !! POOL_SCOPE_KEY) as [o |]; simpl in Hp;
          [congruence | discriminate]. }
      rewrite (default_handler_releases be m1 w session p Hlook Hs Hpl Ht1), Hrel. simpl.
      rewrite default_handler_without_session
        by (simpl; rewrite lookup_delete_eq; reflexivity).
      simpl. split; [reflexivity|].
      unfold releases. simpl. rewrite filter_app, length_app. simpl.
      destruct (decide (is_release (EvRelease p session) = true)); simpl; lia.
  - (* the autocommit policy *)
    destruct (default ONone (scope_state w !! POOL_SCOPE_KEY)) as [| c | p] eqn:Hp.
    1,2: destruct (autocommit_unreleased be m1 w) as (l1 & -> & Hl1 & Hl1');
           [left; rewrite Hp; discriminate|];
         destruct (autocommit_unreleased be m2 (with_events (events w ++ l1) w))
           as (l2 & -> & Hl2 & Hl2'); [left; simpl; rewrite Hp; discriminate|];
         split; [apply pool_ops_app, Hl2'|];
         unfold releases; simpl; rewrite !filter_app, !length_app, Hl1, Hl2; simpl; lia.
    destruct (wait_for_one_arg be) eqn:Hwf.
    + destruct (autocommit_unreleased be m1 w) as (l1 & -> & Hl1 & Hl1'); [right; exact Hwf|].
      destruct (autocommit_unreleased be m2 (with_events (events w ++ l1) w))
        as (l2 & -> & Hl2 & Hl2'); [right; exact Hwf|].
      split; [apply pool_ops_app, Hl2'|].
      unfold releases. simpl. rewrite !filter_app, !length_app, Hl1, Hl2. simpl. lia.
    + assert (H1 : exists r l,
                autocommit_before_send_handler be m1 w =
                  (r, with_scope_state (delete SESSION_SCOPE_KEY (scope_state w))
                        (with_events ((events w ++ l) ++ [EvRelease p session]) w))
                /\ filter (fun e => is_release e = true) l = []).
      { unfold autocommit_before_send_handler, bind, get_litestar_scope_state.
        simpl. fold session. rewrite Hp. unfold try_finally.
        destruct (commit_or_rollback_frame be session m1 w) as (l & Hw & Hl & _).
        destruct (commit_or_rollback be session m1 w) as [r wb]. simpl in Hw. subst wb.
        rewrite (release_on_terminus_awaited be session p m1
                   (with_events (events w ++ l) w))
          by (assumption || (rewrite Hs, Ht1; reflexivity)).
        rewrite Hrel. exists r, l. split; [reflexivity | exact Hl]. }
      destruct H1 as (r & l & -> & Hl). simpl.
      rewrite autocommit_handler_without_session
        by (simpl; rewrite lookup_delete_eq; reflexivity).
      simpl. split; [reflexivity|].
      unfold releases. simpl. rewrite !filter_app, !length_app, Hl. simpl.
      destruct (decide (is_release (EvRelease p session) = true)); simpl; lia.
Qed.

(** When [pool.release] itself raises, the plain policy does not
    return, the session entry stays in the scope, and the next terminus
    message calls [pool.release] on the same connection again. *)
Lemma failed_release_is_retried :
  handle_all (default_before_send_handler (Sample.failing_release MissingTimeoutRaises))
    [Sample.http_disconnect; Sample.websocket_close] Sample.leased_with_pool =
  with_events [EvRelease 1 (OConn 7); EvRelease 1 (OConn 7)] Sample.leased_with_pool.
Proof. vm_compute. reflexivity. Qed.

(** * Further properties *)

(** ** What the handlers touch *)

Lemma handle_all_without_session_witness :
  handle_all (run_handler (Sample.backend MissingTimeoutRaises) AutocommitHandler)
    [Sample.response_start 200; Sample.http_disconnect] Sample.started =
  Sample.started.
Proof.
  apply (handle_all_without_session (Sample.backend MissingTimeoutRaises)
           AutocommitHandler [Sample.response_start 200; Sample.http_disconnect]
           Sample.started).
  reflexivity.
Defined.

Lemma no_double_release_witness :
  pool_ops
    (snd (run_handler (Sample.backend AwaitsUnbounded) AutocommitHandler
            Sample.http_disconnect
            (snd (run_handler (Sample.backend AwaitsUnbounded) AutocommitHandler
                    (Sample.response_start 204) Sample.leased_with_pool)))) =
  pool_ops
    (snd (run_handler (Sample.backend AwaitsUnbounded) AutocommitHandler
            (Sample.response_start 204) Sample.leased_with_pool))
  /\ (releases
        (snd (run_handler (Sample.backend AwaitsUnbounded) AutocommitHandler
                Sample.http_disconnect
                (snd (run_handler (Sample.backend AwaitsUnbounded) AutocommitHandler
                        (Sample.response_start 204) Sample.leased_with_pool))))
      <= releases Sample.leased_with_pool + 1)%nat.
Proof.
  apply (no_double_release (Sample.backend AwaitsUnbounded) AutocommitHandler
           (Sample.response_start 204) Sample.http_disconnect Sample.leased_with_pool).
  - intros p session log. reflexivity.
  - reflexivity.
  - reflexivity.
Defined.

Lemma not_terminus_not_response_start (message : Message) :
  is_terminus message = false ->
  String.eqb (msg_type message) HTTP_RESPONSE_START = false.
Proof.
  intros H. destruct (String.eqb_spec (msg_type message) HTTP_RESPONSE_START) as [E |];
    [|reflexivity].
  rewrite (response_start_is_terminus message E) in H. discriminate H.
Qed.

(** X3. A message that is not a terminus message (a response body, a
    websocket frame) is ignored by both policies, whatever the scope
    holds: the handler returns and the lease stays as it is. *)
Theorem handlers_ignore_other_messages (be : Backend) (h : Handler)
    (message : Message) (w : World) :
  is_terminus message = false ->
  run_handler be h message w = (Ret tt, w).
Proof.
  intros H. destruct h; simpl.
  - apply default_handler_skips. rewrite H. apply andb_false_r.
  - unfold autocommit_before_send_handler, bind, get_litestar_scope_state. simpl.
    unfold try_finally, commit_or_rollback, release_on_terminus.
    rewrite (not_terminus_not_response_start message H), H, !andb_false_r.
    reflexivity.
Qed.

Lemma handlers_ignore_other_messages_witness :
  run_handler (Sample.backend AwaitsUnbounded) AutocommitHandler
    Scenario.response_body Sample.leased_with_pool = (Ret tt, Sample.leased_with_pool).
Proof.
  apply (handlers_ignore_other_messages (Sample.backend AwaitsUnbounded)
           AutocommitHandler Scenario.response_body Sample.leased_with_pool).
  reflexivity.
Defined.

(** The effect of the release suites on the world: at most the session
    entry goes, at most one release of the session is logged. *)
Lemma release_on_terminus_effect (be : Backend) (session pool : Obj)
    (message : Message) (w : World) :
  config (snd (release_on_terminus be session pool message w)) = config w
  /\ app_state (snd (release_on_terminus be session pool message w)) = app_state w
  /\ (scope_state (snd (release_on_terminus be session pool message w)) = scope_state w
      \/ scope_state (snd (release_on_terminus be session pool message w)) =
         delete SESSION_SCOPE_KEY (scope_state w))
  /\ (events (snd (release_on_terminus be session pool message w)) = events w
      \/ exists p,
           events (snd (release_on_terminus be session pool message w)) =
           events w ++ [EvRelease p session]).
Proof.
  unfold release_on_terminus.
  destruct (truthy session && is_terminus message); [|simpl; auto].
  destruct pool as [| c | p]; simpl; auto.
  unfold bind, ret, asyncio_wait_for_one_arg.
  destruct (wait_for_one_arg be); simpl; auto.
  unfold release_body, bind, get_world, log. simpl.
  destruct (pool_release be p session (events w)); simpl; [eauto 10|].
  unfold delete_litestar_scope_state. simpl.
  destruct (scope_state w !! SESSION_SCOPE_KEY); simpl; eauto 10.
Qed.

Lemma default_handler_effect (be : Backend) (message : Message) (w : World) :
  config (snd (default_before_send_handler be message w)) = config w
  /\ app_state (snd (default_before_send_handler be message w)) = app_state w
  /\ (scope_state (snd (default_before_send_handler be message w)) = scope_state w
      \/ scope_state (snd (default_before_send_handler be message w)) =
         delete SESSION_SCOPE_KEY (scope_state w))
  /\ (events (snd (default_before_send_handler be message w)) = events w
      \/ exists p session,
           events (snd (default_before_send_handler be message w)) =
           events w ++ [EvRelease p session]).
Proof.
  unfold default_before_send_handler, bind, get_litestar_scope_state. simpl.
  set (session := default ONone (scope_state w !! SESSION_SCOPE_KEY)).
  destruct (truthy (default ONone (scope_state w !! POOL_SCOPE_KEY))
            && truthy session && is_terminus message); [|simpl; auto].
  destruct (default ONone (scope_state w !! POOL_SCOPE_KEY)) as [| c | p]; simpl; auto.
  unfold release_body, bind, get_world, log. simpl.
  destruct (pool_release be p session (events w)); simpl; [eauto 10|].
  unfold delete_litestar_scope_state. simpl.
  destruct (scope_state w !! SESSION_SCOPE_KEY); simpl; eauto 10.
Qed.

(** X4. Whatever the message, the backend and the outcome, a handler
    leaves the configuration and the application state alone; in the
    scope it changes nothing or removes the session entry, and it only
    ever appends to the log of calls. *)
Theorem handler_frame (be : Backend) (h : Handler) (message : Message) (w : World) :
  config (snd (run_handler be h message w)) = config w
  /\ app_state (snd (run_handler be h message w)) = app_state w
  /\ (scope_state (snd (run_handler be h message w)) = scope_state w
      \/ scope_state (snd (run_handler be h message w)) =
         delete SESSION_SCOPE_KEY (scope_state w))
  /\ exists l, events (snd (run_handler be h message w)) = events w ++ l.
Proof.
  destruct h; simpl.
  - destruct (default_handler_effect be message w) as (Hc & Ha & Hs & He).
    repeat split; auto.
    destruct He as [-> | (p & session & ->)]; [exists []; symmetry; apply app_nil_r | eauto].
  - unfold autocommit_before_send_handler, bind, get_litestar_scope_state. simpl.
    unfold try_finally.
    set (session := default ONone (scope_state w !! SESSION_SCOPE_KEY)).
    set (pool := default ONone (scope_state w !! POOL_SCOPE_KEY)).
    destruct (commit_or_rollback_frame be session message w) as (l & Hw & _ & _).
    destruct (commit_or_rollback be session message w) as [r wb]. simpl in Hw. subst wb.
    destruct (release_on_terminus_effect be session pool message
                (with_events (events w ++ l) w)) as (Hc & Ha & Hs & He).
    destruct (release_on_terminus be session pool message
                (with_events (events w ++ l) w)) as [[u | e] w']; simpl in *.
    all: repeat split; auto.
    all: destruct He as [-> | (p & ->)];
      [exists l; reflexivity | exists (l ++ [EvRelease p session]); apply eq_sym, app_assoc].
Qed.

(** X5. On a message other than the response start (a client
    disconnect, a websocket close or disconnect), the autocommit policy
    calls neither [commit()] nor [rollback()]: the transaction of the
    connection is left as it was. *)
Theorem autocommit_only_on_response_start (be : Backend) (message : Message)
    (w : World) :
  msg_type message <> HTTP_RESPONSE_START ->
  transaction_ops (snd (autocommit_before_send_handler be message w)) =
  transaction_ops w.
Proof.
  intros Hne.
  unfold autocommit_before_send_handler, bind, get_litestar_scope_state. simpl.
  unfold try_finally.
  set (session := default ONone (scope_state w !! SESSION_SCOPE_KEY)).
  set (pool := default ONone (scope_state w !! POOL_SCOPE_KEY)).
  assert (Hbody : commit_or_rollback be session message w = (Ret tt, w)).
  { unfold commit_or_rollback.
    destruct (String.eqb_spec (msg_type message) HTTP_RESPONSE_START) as [E |];
      [contradiction|].
    rewrite andb_false_r. reflexivity. }
  rewrite Hbody.
  destruct (release_on_terminus_effect be session pool message w) as (_ & _ & _ & He).
  destruct (release_on_terminus be session pool message w) as [[u | e] w']; simpl in *.
  all: unfold transaction_ops; destruct He as [-> | (p & ->)]; [reflexivity|].
  all: rewrite filter_app; simpl; apply app_nil_r.
Qed.

Lemma autocommit_only_on_response_start_witness :
  transaction_ops
    (snd (autocommit_before_send_handler (Sample.backend AwaitsUnbounded)
            Sample.http_disconnect Sample.leased_with_pool)) =
  transaction_ops Sample.leased_with_pool.
Proof.
  apply (autocommit_only_on_response_start (Sample.backend AwaitsUnbounded)
           Sample.http_disconnect Sample.leased_with_pool).
  unfold Sample.http_disconnect, HTTP_DISCONNECT, HTTP_RESPONSE_START. simpl.
  congruence.
Defined.

(** X6. For a scope that holds a connection but no pool entry, the
    autocommit policy raises the attribute error of [None.release] on
    every terminus message, whatever [commit()] or [rollback()] did
    (their own exception is lost); it makes no call on a pool and
    leaves the session entry where it is. *)
Theorem autocommit_without_pool_entry (be : Backend) (message : Message)
    (w : World) (c : nat) :
  scope_state w !! SESSION_SCOPE_KEY = Some (OConn c) ->
  scope_state w !! POOL_SCOPE_KEY = None ->
  is_terminus message = true ->
  fst (autocommit_before_send_handler be message w) = Raise (AttributeError "release")
  /\ scope_state (snd (autocommit_before_send_handler be message w)) = scope_state w
  /\ pool_ops (snd (autocommit_before_send_handler be message w)) = pool_ops w.
Proof.
  intros Hs Hp Ht.
  unfold autocommit_before_send_handler, bind, get_litestar_scope_state. simpl.
  rewrite Hs, Hp. simpl. unfold try_finally.
  destruct (commit_or_rollback_frame be (OConn c) message w) as (l & Hw & _ & Hl).
  destruct (commit_or_rollback be (OConn c) message w) as [r wb]. simpl in Hw. subst wb.
  rewrite release_on_terminus_no_pool
    by (discriminate || (rewrite Ht; reflexivity)).
  simpl. repeat split. apply pool_ops_app, Hl.
Qed.

Lemma autocommit_without_pool_entry_witness :
  fst (autocommit_before_send_handler (Sample.failing_commit AwaitsUnbounded)
         (Sample.response_start 200) Sample.leased) = Raise (AttributeError "release")
  /\ scope_state
       (snd (autocommit_before_send_handler (Sample.failing_commit AwaitsUnbounded)
               (Sample.response_start 200) Sample.leased)) = scope_state Sample.leased
  /\ pool_ops
       (snd (autocommit_before_send_handler (Sample.failing_commit AwaitsUnbounded)
               (Sample.response_start 200) Sample.leased)) = pool_ops Sample.leased.
Proof.
  apply (autocommit_without_pool_entry (Sample.failing_commit AwaitsUnbounded)
           (Sample.response_start 200) Sample.leased 7); reflexivity.
Defined.

(** X7. With [asyncio.wait_for] refusing a call without [timeout], the
    autocommit policy never gives a connection back: whatever messages
    it handles, the scope stays as it was and no release is made. *)
Theorem autocommit_lease_is_stuck (be : Backend) (messages : list Message)
    (w : World) :
  wait_for_one_arg be = MissingTimeoutRaises ->
  scope_state (handle_all (autocommit_before_send_handler be) messages w) = scope_state w
  /\ releases (handle_all (autocommit_before_send_handler be) messages w) = releases w.
Proof.
  intros Hwf. revert w. induction messages as [| message rest IH]; intros w; simpl.
  - auto.
  - destruct (autocommit_unreleased be message w (or_intror Hwf)) as (l & Hw & Hl & _).
    rewrite Hw. destruct (IH (with_events (events w ++ l) w)) as [IHs IHr].
    rewrite IHs, IHr. split; [reflexivity|].
    rewrite releases_app, Hl. simpl. lia.
Qed.

Lemma autocommit_lease_is_stuck_witness :
  scope_state
    (handle_all (autocommit_before_send_handler (Sample.backend MissingTimeoutRaises))
       [Sample.response_start 200; Sample.http_disconnect] Sample.leased_with_pool) =
  scope_state Sample.leased_with_pool
  /\ releases
       (handle_all (autocommit_before_send_handler (Sample.backend MissingTimeoutRaises))
          [Sample.response_start 200; Sample.http_disconnect] Sample.leased_with_pool) =
     releases Sample.leased_with_pool.
Proof.
  apply (autocommit_lease_is_stuck (Sample.backend MissingTimeoutRaises)
           [Sample.response_start 200; Sample.http_disconnect] Sample.leased_with_pool).
  reflexivity.
Defined.

(** ** The providers and the handlers together *)

Lemma provide_connection_stores (be : Backend) (w w1 : World) (o : Obj) :
  provide_connection be w = (Ret o, w1) ->
  scope_state w1 !! SESSION_SCOPE_KEY = Some o.
Proof.
  unfold provide_connection, bind, get_litestar_scope_state.
  destruct (scope_state w !! SESSION_SCOPE_KEY) as [[| c | p] |] eqn:Hs; simpl.
  2,3: intros H; injection H as <- <-; exact Hs.
  all: unfold provide_pool, bind, get_config, state_get;
    destruct (default ONone (app_state w !! pool_app_state_key (config w))) as [| c | p];
    simpl; try discriminate;
    unfold bind, get_world, log; simpl;
    destruct (pool_acquire be p (events w)) as [e | c]; simpl; [discriminate|];
    intros H; injection H as <- <-; simpl; apply lookup_insert_eq.
Qed.

(** X8. A connection handed out by [provide_connection] in a scope
    without a pool entry is never given back by the plain policy:
    whatever messages follow, the handler changes nothing, so the
    connection stays in the scope and no release is made. *)
Theorem lease_leaks_under_plain_policy (be : Backend) (w w1 : World) (o : Obj)
    (messages : list Message) :
  scope_state w !! POOL_SCOPE_KEY = None ->
  provide_connection be w = (Ret o, w1) ->
  handle_all (default_before_send_handler be) messages w1 = w1
  /\ scope_state w1 !! SESSION_SCOPE_KEY = Some o.
Proof.
  intros Hp Hrun. split; [|exact (provide_connection_stores be w w1 o Hrun)].
  assert (Hp1 : scope_state w1 !! POOL_SCOPE_KEY = None).
  { pose proof (provide_connection_keeps_pool_entry be w) as H.
    rewrite Hrun in H. simpl in H. rewrite H. exact Hp. }
  clear Hrun. induction messages as [| message rest IH]; simpl; [reflexivity|].
  rewrite (default_handler_without_pool_entry be message w1 Hp1). exact IH.
Qed.

Lemma lease_leaks_under_plain_policy_witness :
  handle_all (default_before_send_handler (Sample.backend MissingTimeoutRaises))
    [Sample.response_start 200; Sample.http_disconnect]
    (with_events [EvAcquire 1] Sample.leased) = with_events [EvAcquire 1] Sample.leased
  /\ scope_state (with_events [EvAcquire 1] Sample.leased) !! SESSION_SCOPE_KEY =
     Some (OConn 7).
Proof.
  apply (lease_leaks_under_plain_policy (Sample.backend MissingTimeoutRaises)
           Sample.started (with_events [EvAcquire 1] Sample.leased) (OConn 7)
           [Sample.response_start 200; Sample.http_disconnect]).
  - reflexivity.
  - vm_compute. reflexivity.
Defined.

(** X9. When [pool.acquire()] raises, [provide_connection] raises the
    same exception and stores nothing: apart from the logged call the
    world is as before, so a later call asks the pool again. *)
Theorem provide_connection_acquire_failure (be : Backend) (w : World) (p : nat)
    (e : Exn) :
  default ONone (scope_state w !! SESSION_SCOPE_KEY) = ONone ->
  app_state w !! pool_app_state_key (config w) = Some (OPool p) ->
  pool_acquire be p (events w) = inl e ->
  provide_connection be w = (Raise e, with_events (events w ++ [EvAcquire p]) w).
Proof.
  intros Hs Hp Ha.
  unfold provide_connection, bind, get_litestar_scope_state.
  rewrite Hs. simpl.
  unfold provide_pool, bind, get_config, state_get. rewrite Hp. simpl.
  unfold bind, get_world, log. simpl. rewrite Ha. reflexivity.
Qed.

Lemma provide_connection_acquire_failure_witness :
  provide_connection Scenario.failing_acquire Sample.started =
    (Raise (BackendError 4), with_events ([] ++ [EvAcquire 1]) Sample.started).
Proof.
  apply (provide_connection_acquire_failure Scenario.failing_acquire
           Sample.started 1 (BackendError 4)); reflexivity.
Defined.

Lemma provide_connection_before_startup_witness :
  provide_connection (Sample.backend MissingTimeoutRaises) Sample.fresh =
    (Raise (AttributeError "acquire"), Sample.fresh).
Proof.
  apply (provide_connection_before_startup (Sample.backend MissingTimeoutRaises)
           Sample.fresh); reflexivity.
Defined.

(** X11. [provide_connection] writes the session entry of the scope
    and nothing else: every other scope entry, the application state
    and the configuration are as before, whatever the outcome. *)
Theorem provide_connection_frame (be : Backend) (w : World) (key : string) :
  key <> SESSION_SCOPE_KEY ->
  scope_state (snd (provide_connection be w)) !! key = scope_state w !! key
  /\ app_state (snd (provide_connection be w)) = app_state w
  /\ config (snd (provide_connection be w)) = config w.
Proof.
  intros Hne. unfold provide_connection, bind, get_litestar_scope_state.
  destruct (is_none (default ONone (scope_state w !! SESSION_SCOPE_KEY))); [|auto].
  unfold provide_pool, bind, get_config, state_get.
  destruct (default ONone (app_state w !! pool_app_state_key (config w))) as [| c | p];
    simpl; auto.
  unfold bind, get_world, log. simpl.
  destruct (pool_acquire be p (events w)) as [e | c]; simpl; auto.
  repeat split. apply lookup_insert_ne. congruence.
Qed.

Lemma provide_connection_frame_witness :
  scope_state
    (snd (provide_connection (Sample.backend MissingTimeoutRaises)
            Scenario.scope_with_other_pool)) !! POOL_SCOPE_KEY =
  scope_state Scenario.scope_with_other_pool !! POOL_SCOPE_KEY
  /\ app_state
       (snd (provide_connection (Sample.backend MissingTimeoutRaises)
               Scenario.scope_with_other_pool)) =
     app_state Scenario.scope_with_other_pool
  /\ config
       (snd (provide_connection (Sample.backend MissingTimeoutRaises)
               Scenario.scope_with_other_pool)) =
     config Scenario.scope_with_other_pool.
Proof.
  apply (provide_connection_frame (Sample.backend MissingTimeoutRaises)
           Scenario.scope_with_other_pool POOL_SCOPE_KEY).
  unfold POOL_SCOPE_KEY, SESSION_SCOPE_KEY. congruence.
Defined.

(** X12. Once [provide_connection] has returned a connection, any
    number of further calls in the same scope return that connection
    and change nothing: the scope holds one lease and the pool is not
    asked again. *)
Theorem provide_connection_single_lease (be : Backend) (w w1 : World) (o : Obj)
    (n : nat) :
  provide_connection be w = (Ret o, w1) ->
  call_n n (provide_connection be) w1 = (replicate n (Ret o), w1).
Proof.
  intros H. apply call_n_fixed. exact (provide_connection_twice be w w1 o H).
Qed.

Lemma provide_connection_single_lease_witness :
  call_n 3 (provide_connection (Sample.backend MissingTimeoutRaises))
    (with_events [EvAcquire 1] Sample.leased) =
  (replicate 3 (Ret (OConn 7)), with_events [EvAcquire 1] Sample.leased).
Proof.
  apply (provide_connection_single_lease (Sample.backend MissingTimeoutRaises)
           Sample.started (with_events [EvAcquire 1] Sample.leased) (OConn 7) 3).
  vm_compute. reflexivity.
Defined.

(** X13. The whole lease under the plain policy, for a scope that was
    given a pool entry: [provide_connection] acquires from the pool of
    the application state, and on a terminus message the handler
    releases that connection to the pool of the scope entry (which need
    not be the same pool) and clears the session entry. *)
Theorem lease_cycle (be : Backend) (w : World) (message : Message)
    (p p' c : nat) :
  default ONone (scope_state w !! SESSION_SCOPE_KEY) = ONone ->
  app_state w !! pool_app_state_key (config w) = Some (OPool p) ->
  scope_state w !! POOL_SCOPE_KEY = Some (OPool p') ->
  pool_acquire be p (events w) = inr c ->
  pool_release be p' (OConn c) (events w ++ [EvAcquire p]) = None ->
  is_terminus message = true ->
  default_before_send_handler be message (snd (provide_connection be w)) =
    (Ret tt,
     with_scope_state (delete SESSION_SCOPE_KEY (scope_state w))
       (with_events (events w ++ [EvAcquire p; EvRelease p' (OConn c)]) w)).
Proof.
  intros Hs Hp Hp' Ha Hr Ht.
  rewrite (provide_connection_acquires be w p c Hs Hp Ha). simpl.
  rewrite (default_handler_releases be message _ (OConn c) p').
  - simpl. rewrite Hr. simpl. rewrite delete_insert_eq, <- app_assoc. reflexivity.
  - simpl. apply lookup_insert_eq.
  - reflexivity.
  - simpl. rewrite lookup_insert_ne by apply session_key_not_pool_key. exact Hp'.
  - exact Ht.
Qed.

Lemma lease_cycle_witness :
  default_before_send_handler (Sample.backend MissingTimeoutRaises)
    Sample.websocket_close
    (snd (provide_connection (Sample.backend MissingTimeoutRaises)
            Scenario.scope_with_other_pool)) =
    (Ret tt,
     with_scope_state (delete SESSION_SCOPE_KEY (scope_state Scenario.scope_with_other_pool))
       (with_events ([] ++ [EvAcquire 1; EvRelease 2 (OConn 7)])
          Scenario.scope_with_other_pool)).
Proof.
  apply (lease_cycle (Sample.backend MissingTimeoutRaises)
           Scenario.scope_with_other_pool Sample.websocket_close 1 2 7);
    reflexivity.
Defined.

(** ** More on [create_pool] *)

Lemma set_pool_instance_same (cfg : AsyncpgConfig) :
  set_pool_instance (pool_instance cfg) cfg = cfg.
Proof. destruct cfg; reflexivity. Qed.

(** What a call of [create_pool] can change: the pool instance of the
    configuration, and the log by at most one constructor call. *)
Lemma create_pool_effect (be : Backend) (w : World) :
  app_state (snd (create_pool be w)) = app_state w
  /\ scope_state (snd (create_pool be w)) = scope_state w
  /\ config (snd (create_pool be w)) =
     set_pool_instance (pool_instance (config (snd (create_pool be w)))) (config w)
  /\ (events (snd (create_pool be w)) = events w
      \/ exists pc,
           pool_config (config w) = Some pc
           /\ events (snd (create_pool be w)) =
              events w ++ [EvCreatePool (simple_asdict pc)]).
Proof.
  unfold create_pool, bind, get_config. simpl.
  destruct (is_none (pool_instance (config w))); simpl.
  2:{ rewrite set_pool_instance_same. auto. }
  destruct (pool_config (config w)) as [pc |] eqn:Hpc; simpl.
  2:{ rewrite set_pool_instance_same. auto. }
  unfold pool_config_dict, bind, get_config. simpl. rewrite Hpc. simpl.
  unfold call_create_pool, bind, get_world, log. simpl.
  destruct (asyncpg_create_pool be (simple_asdict pc) (events w)) as [e | created]; simpl.
  - rewrite set_pool_instance_same. eauto 10.
  - destruct (is_none created); simpl; eauto 10.
Qed.

(** X20. With neither a pool instance nor a pool configuration,
    [create_pool] raises [ImproperlyConfiguredException] and does
    nothing else: the constructor is not called. *)
Theorem create_pool_unconfigured (be : Backend) (w : World) :
  pool_instance (config w) = ONone ->
  pool_config (config w) = None ->
  create_pool be w =
    (Raise (ImproperlyConfiguredException
              "One of 'pool_config' or 'pool_instance' must be provided."), w).
Proof.
  intros Hi Hc. unfold create_pool, bind, get_config. simpl.
  rewrite Hi, Hc. reflexivity.
Qed.

Lemma create_pool_unconfigured_witness :
  create_pool (Sample.backend MissingTimeoutRaises) Scenario.unconfigured =
    (Raise (ImproperlyConfiguredException
              "One of 'pool_config' or 'pool_instance' must be provided."),
     Scenario.unconfigured).
Proof.
  apply (create_pool_unconfigured (Sample.backend MissingTimeoutRaises)
           Scenario.unconfigured); reflexivity.
Defined.

Lemma create_pool_raise_instance (be : Backend) (w w1 : World) (e : Exn) :
  create_pool be w = (Raise e, w1) ->
  pool_instance (config w1) = ONone.
Proof.
  unfold create_pool, bind, get_config. simpl.
  destruct (pool_instance (config w)) as [| c | p] eqn:Hi; simpl; try discriminate.
  destruct (pool_config (config w)) as [pc |] eqn:Hpc; simpl.
  2:{ intros H. injection H as _ <-. exact Hi. }
  unfold pool_config_dict, bind, get_config. simpl. rewrite Hpc. simpl.
  unfold call_create_pool, bind, get_world, log. simpl.
  destruct (asyncpg_create_pool be (simple_asdict pc) (events w)) as [x | created]; simpl.
  - intros H. injection H as _ <-. exact Hi.
  - destruct created; simpl; try discriminate.
    intros H. injection H as _ <-. reflexivity.
Qed.

(** X21. A call of [create_pool] that raises leaves no pool cached:
    the pool instance of the configuration is [None] afterwards, so the
    next call starts over. *)
Theorem create_pool_failure_not_cached (be : Backend) (w w1 : World) (e : Exn) :
  create_pool be w = (Raise e, w1) ->
  pool_instance (config w1) = ONone.
Proof. exact (create_pool_raise_instance be w w1 e). Qed.

Lemma create_pool_failure_not_cached_witness :
  pool_instance
    (config (with_events [EvCreatePool (simple_asdict Sample.pool_cfg)] Sample.fresh)) =
  ONone.
Proof.
  apply (create_pool_failure_not_cached Scenario.constructor_fails Sample.fresh
           (with_events [EvCreatePool (simple_asdict Sample.pool_cfg)] Sample.fresh)
           (BackendError 5)).
  reflexivity.
Defined.

(** X22. When the constructor returns [None], [create_pool] has called
    it once with the keyword arguments of the pool configuration and
    raises [ImproperlyConfiguredException]. *)
Theorem create_pool_none_result (be : Backend) (w : World) (pc : PoolConfig) :
  pool_instance (config w) = ONone ->
  pool_config (config w) = Some pc ->
  asyncpg_create_pool be (simple_asdict pc) (events w) = inr ONone ->
  create_pool be w =
    (Raise (ImproperlyConfiguredException
              "Could not configure the 'pool_instance'. Please check your configuration."),
     with_events (events w ++ [EvCreatePool (simple_asdict pc)]) w).
Proof.
  intros Hi Hc Hb. unfold create_pool, bind, get_config. simpl.
  rewrite Hi, Hc. simpl.
  unfold pool_config_dict, bind, get_config. simpl. rewrite Hc. simpl.
  unfold call_create_pool, bind, get_world, log. simpl. rewrite Hb. simpl.
  unfold with_config, with_events. simpl.
  rewrite <- Hi at 1. rewrite set_pool_instance_same. reflexivity.
Qed.

Lemma create_pool_none_result_witness :
  create_pool Scenario.no_pool_built Sample.fresh =
    (Raise (ImproperlyConfiguredException
              "Could not configure the 'pool_instance'. Please check your configuration."),
     with_events ([] ++ [EvCreatePool (simple_asdict Sample.pool_cfg)]) Sample.fresh).
Proof.
  apply (create_pool_none_result Scenario.no_pool_built Sample.fresh Sample.pool_cfg);
    reflexivity.
Defined.

(** X23. On a configuration with a pool configuration and no instance
    yet, when the constructor returns a pool, [create_pool] has called
    it once with the keyword arguments of the pool configuration, has
    recorded the pool as the instance and returns it. *)
Theorem create_pool_constructs (be : Backend) (w : World) (pc : PoolConfig)
    (p : nat) :
  pool_instance (config w) = ONone ->
  pool_config (config w) = Some pc ->
  asyncpg_create_pool be (simple_asdict pc) (events w) = inr (OPool p) ->
  create_pool be w =
    (Ret (OPool p),
     with_config (set_pool_instance (OPool p) (config w))
       (with_events (events w ++ [EvCreatePool (simple_asdict pc)]) w)).
Proof.
  intros Hi Hc Hb. unfold create_pool, bind, get_config. simpl.
  rewrite Hi, Hc. simpl.
  unfold pool_config_dict, bind, get_config. simpl. rewrite Hc. simpl.
  unfold call_create_pool, bind, get_world, log. simpl. rewrite Hb. reflexivity.
Qed.

Lemma create_pool_constructs_witness :
  create_pool (Sample.backend MissingTimeoutRaises) Sample.fresh =
    (Ret (OPool 1),
     with_config (set_pool_instance (OPool 1) (config Sample.fresh))
       (with_events ([] ++ [EvCreatePool (simple_asdict Sample.pool_cfg)]) Sample.fresh)).
Proof.
  apply (create_pool_constructs (Sample.backend MissingTimeoutRaises) Sample.fresh
           Sample.pool_cfg 1); reflexivity.
Defined.

(** ** More on startup and shutdown *)

(** [on_startup] is [create_pool] followed, when that returns, by the
    update of the application state. *)
Lemma on_startup_unfold (be : Backend) (w : World) :
  on_startup be w =
    match create_pool be w with
    | (Ret o, w') =>
        (Ret tt,
         with_app_state ({[ pool_app_state_key (config w) := o ]} ∪ app_state w') w')
    | (Raise e, w') => (Raise e, w')
    end.
Proof.
  unfold on_startup, update_app_state, create_app_state_items, bind, get_config.
  simpl. destruct (create_pool be w) as [[o | e] w']; reflexivity.
Qed.

Lemma create_pool_keeps_key (be : Backend) (w : World) :
  pool_app_state_key (config (snd (create_pool be w))) = pool_app_state_key (config w).
Proof.
  destruct (create_pool_effect be w) as (_ & _ & Hc & _). rewrite Hc. reflexivity.
Qed.

Lemma on_startup_success (be : Backend) (w w1 : World) :
  on_startup be w = (Ret tt, w1) ->
  provide_pool w1 = (Ret (pool_instance (config w1)), w1)
  /\ is_none (pool_instance (config w1)) = false.
Proof.
  rewrite on_startup_unfold.
  pose proof (create_pool_keeps_key be w) as Hk.
  destruct (create_pool be w) as [[o | e] w'] eqn:Hc; [|discriminate].
  intros H. injection H as <-. simpl in Hk |- *.
  destruct (create_pool_success be w w' o Hc) as [Hi Hn].
  rewrite Hi. split; [|exact Hn].
  apply provide_pool_present. simpl. rewrite Hk.
  apply lookup_union_Some_l, lookup_singleton_eq.
Qed.

(** X14. Once [on_startup] has returned, [provide_pool] returns the
    pool that the configuration holds as its instance, and that pool is
    not [None]. *)
Theorem startup_publishes_pool_instance (be : Backend) (w w1 : World) :
  on_startup be w = (Ret tt, w1) ->
  provide_pool w1 = (Ret (pool_instance (config w1)), w1)
  /\ is_none (pool_instance (config w1)) = false.
Proof. exact (on_startup_success be w w1). Qed.

Lemma startup_publishes_pool_instance_witness :
  provide_pool
    (with_events [EvCreatePool (simple_asdict Sample.pool_cfg)] Sample.started) =
    (Ret (pool_instance
            (config (with_events [EvCreatePool (simple_asdict Sample.pool_cfg)]
                       Sample.started))),
     with_events [EvCreatePool (simple_asdict Sample.pool_cfg)] Sample.started)
  /\ is_none
       (pool_instance
          (config (with_events [EvCreatePool (simple_asdict Sample.pool_cfg)]
                     Sample.started))) = false.
Proof.
  apply (startup_publishes_pool_instance (Sample.backend MissingTimeoutRaises)
           Sample.fresh).
  vm_compute. reflexivity.
Defined.

(** X15. When [on_startup] raises, the exception is that of
    [create_pool], nothing was put in the application state, and the
    configuration holds no pool instance. *)
Theorem on_startup_failure (be : Backend) (w w1 : World) (e : Exn) :
  on_startup be w = (Raise e, w1) ->
  create_pool be w = (Raise e, w1)
  /\ app_state w1 = app_state w
  /\ pool_instance (config w1) = ONone.
Proof.
  rewrite on_startup_unfold.
  destruct (create_pool_effect be w) as (Ha & _).
  destruct (create_pool be w) as [[o | x] w'] eqn:Hc; [discriminate|].
  intros H. injection H as <- <-. simpl in Ha.
  repeat split; [exact Ha|].
  exact (create_pool_raise_instance be w w' x Hc).
Qed.

Lemma on_startup_failure_witness :
  create_pool (Sample.backend MissingTimeoutRaises) Scenario.unconfigured =
    (Raise (ImproperlyConfiguredException
              "One of 'pool_config' or 'pool_instance' must be provided."),
     Scenario.unconfigured)
  /\ app_state Scenario.unconfigured = app_state Scenario.unconfigured
  /\ pool_instance (config Scenario.unconfigured) = ONone.
Proof.
  apply (on_startup_failure (Sample.backend MissingTimeoutRaises) Scenario.unconfigured).
  reflexivity.
Defined.

(** X16. [on_startup] writes one entry of the application state, the
    one under the pool key: every other entry, and the scope, are as
    before, whatever the outcome. *)
Theorem on_startup_frame (be : Backend) (w : World) (key : string) :
  key <> pool_app_state_key (config w) ->
  app_state (snd (on_startup be w)) !! key = app_state w !! key
  /\ scope_state (snd (on_startup be w)) = scope_state w.
Proof.
  intros Hne. rewrite on_startup_unfold.
  destruct (create_pool_effect be w) as (Ha & Hs & _).
  destruct (create_pool be w) as [[o | e] w']; simpl in *.
  - split; [|exact Hs]. rewrite lookup_union_r, Ha; [reflexivity|].
    apply lookup_singleton_ne. congruence.
  - rewrite Ha. auto.
Qed.

Lemma on_startup_frame_witness :
  app_state (snd (on_startup (Sample.backend MissingTimeoutRaises) Sample.fresh))
    !! "other" = app_state Sample.fresh !! "other"
  /\ scope_state (snd (on_startup (Sample.backend MissingTimeoutRaises) Sample.fresh))
     = scope_state Sample.fresh.
Proof.
  apply (on_startup_frame (Sample.backend MissingTimeoutRaises) Sample.fresh "other").
  simpl. congruence.
Defined.

(** X17. With a pool in the application state, [on_shutdown] removes
    the entry and then calls [close()] on the pool, once; the outcome
    of the call is the outcome of [on_shutdown], and the entry is gone
    also when [close()] raises. *)
Theorem on_shutdown_pops_then_closes (be : Backend) (w : World) (p : nat) :
  app_state w !! pool_app_state_key (config w) = Some (OPool p) ->
  on_shutdown be w =
    (match pool_close be p (events w) with
     | None => Ret tt
     | Some e => Raise e
     end,
     with_events (events w ++ [EvClose p])
       (with_app_state (delete (pool_app_state_key (config w)) (app_state w)) w)).
Proof.
  intros H. unfold on_shutdown, bind, get_config, state_pop. simpl.
  rewrite H. simpl. unfold bind, get_world, log. simpl.
  destruct (pool_close be p (events w)); reflexivity.
Qed.

Lemma on_shutdown_pops_then_closes_witness :
  on_shutdown (Sample.backend MissingTimeoutRaises) Sample.started =
    (match pool_close (Sample.backend MissingTimeoutRaises) 1 (events Sample.started) with
     | None => Ret tt
     | Some e => Raise e
     end,
     with_events (events Sample.started ++ [EvClose 1])
       (with_app_state
          (delete (pool_app_state_key (config Sample.started)) (app_state Sample.started))
          Sample.started)).
Proof.
  apply (on_shutdown_pops_then_closes (Sample.backend MissingTimeoutRaises)
           Sample.started 1).
  reflexivity.
Defined.

(** What [on_shutdown] leaves: the same configuration, and no entry
    under the pool key. *)
Lemma on_shutdown_effect (be : Backend) (w : World) :
  config (snd (on_shutdown be w)) = config w
  /\ app_state (snd (on_shutdown be w)) !! pool_app_state_key (config w) = None
  /\ (events (snd (on_shutdown be w)) = events w
      \/ exists p, events (snd (on_shutdown be w)) = events w ++ [EvClose p]).
Proof.
  unfold on_shutdown, bind, get_config, state_pop. simpl.
  destruct (app_state w !! pool_app_state_key (config w)) as [[| c | p] |] eqn:H; simpl;
    try (repeat split; auto; apply lookup_delete_eq).
  unfold bind, get_world, log. simpl.
  destruct (pool_close be p (events w)); simpl;
    (repeat split; [apply lookup_delete_eq | eauto]).
Qed.

(** X18. [on_shutdown] cannot be called twice: whatever the first call
    did, the entry under the pool key is gone after it, and a second
    call raises [KeyError]. *)
Theorem on_shutdown_twice (be : Backend) (w : World) :
  on_shutdown be (snd (on_shutdown be w)) =
    (Raise (KeyError (pool_app_state_key (config w))), snd (on_shutdown be w)).
Proof.
  destruct (on_shutdown_effect be w) as (Hc & Ha & _).
  rewrite <- Hc. apply on_shutdown_missing_key. rewrite Hc. exact Ha.
Qed.

(** X19. A pool instance outlives the shutdown.  After [on_startup]
    and [on_shutdown], a second [on_startup] returns without calling
    the constructor: it puts the pool of the first startup, the one
    that was closed, back into the application state. *)
Theorem restart_reuses_pool (be : Backend) (w w1 : World) :
  on_startup be w = (Ret tt, w1) ->
  exists w3,
    on_startup be (snd (on_shutdown be w1)) = (Ret tt, w3)
    /\ events w3 = events (snd (on_shutdown be w1))
    /\ provide_pool w3 = (Ret (pool_instance (config w1)), w3).
Proof.
  intros Hup.
  destruct (on_startup_success be w w1 Hup) as [_ Hn].
  destruct (on_shutdown_effect be w1) as (Hc & _ & _).
  set (w2 := snd (on_shutdown be w1)) in *.
  assert (Hhit : create_pool be w2 = (Ret (pool_instance (config w1)), w2)).
  { rewrite <- Hc. apply create_pool_hit. rewrite Hc. exact Hn. }
  rewrite on_startup_unfold, Hhit.
  eexists. split; [reflexivity|]. split; [reflexivity|].
  apply provide_pool_present. simpl.
  apply lookup_union_Some_l, lookup_singleton_eq.
Qed.

Lemma restart_reuses_pool_witness :
  exists w3,
    on_startup (Sample.backend MissingTimeoutRaises)
      (snd (on_shutdown (Sample.backend MissingTimeoutRaises)
              (with_events [EvCreatePool (simple_asdict Sample.pool_cfg)]
                 Sample.started))) = (Ret tt, w3)
    /\ events w3 =
       events
         (snd (on_shutdown (Sample.backend MissingTimeoutRaises)
                 (with_events [EvCreatePool (simple_asdict Sample.pool_cfg)]
                    Sample.started)))
    /\ provide_pool w3 =
       (Ret (pool_instance
               (config (with_events [EvCreatePool (simple_asdict Sample.pool_cfg)]
                          Sample.started))), w3).
Proof.
  apply (restart_reuses_pool (Sample.backend MissingTimeoutRaises) Sample.fresh).
  vm_compute. reflexivity.
Defined.

(** ** Connections of a stock pool *)

Lemma commit_or_rollback_no_method (be : Backend) (c : nat) (message : Message)
    (w : World) :
  conn_has_commit be c = false ->
  conn_has_rollback be c = false ->
  snd (commit_or_rollback be (OConn c) message w) = w.
Proof.
  intros Hhc Hhr. unfold commit_or_rollback.
  destruct (negb (is_none (OConn c))
            && String.eqb (msg_type message) HTTP_RESPONSE_START); [|reflexivity].
  unfold message_status, bind. destruct (msg_status message) as [status |]; simpl;
    [|reflexivity].
  destruct ((200 <=? status)%Z && (status <? 300)%Z); simpl.
  - rewrite Hhc. reflexivity.
  - rewrite Hhr. reflexivity.
Qed.

(** For a connection that has neither method, the autocommit policy
    never commits nor rolls back, whatever the message. *)
Lemma autocommit_no_method_no_transaction_op (be : Backend) (c : nat)
    (message : Message) (w : World) :
  conn_has_commit be c = false ->
  conn_has_rollback be c = false ->
  scope_state w !! SESSION_SCOPE_KEY = Some (OConn c) ->
  transaction_ops (snd (autocommit_before_send_handler be message w)) =
  transaction_ops w.
Proof.
  intros Hhc Hhr Hs.
  unfold autocommit_before_send_handler, bind, get_litestar_scope_state. simpl.
  rewrite Hs. simpl. unfold try_finally.
  set (pool := default ONone (scope_state w !! POOL_SCOPE_KEY)).
  pose proof (commit_or_rollback_no_method be c message w Hhc Hhr) as Hb.
  destruct (commit_or_rollback be (OConn c) message w) as [r wb]. simpl in Hb. subst wb.
  destruct (release_on_terminus_effect be (OConn c) pool message w) as (_ & _ & _ & He).
  destruct (release_on_terminus be (OConn c) pool message w) as [[u | e] w']; simpl in *.
  all: unfold transaction_ops; destruct He as [-> | (p & ->)]; [reflexivity|].
  all: rewrite filter_app; simpl; apply app_nil_r.
Qed.

(** C3. The scope holds connection 7 of a stock pool, whose class
    defines neither [commit()] nor [rollback()], and a response-start
    message arrives.  With status 204 the handler goes for
    [session.commit], with status 404 for [session.rollback], and the
    attribute lookup raises: no commit and no rollback is made.  What
    the caller sees is the exception of the [finally] suite where that
    raises too, and the attribute error of the lookup where the release
    goes through. *)
Theorem autocommit_stock_connection_has_no_commit :
  (forall wf,
     autocommit_before_send_handler (Scenario.stock wf)
       (Sample.response_start 204) Sample.leased =
       (Raise (AttributeError "release"), Sample.leased))
  /\ autocommit_before_send_handler (Scenario.stock MissingTimeoutRaises)
       (Sample.response_start 204) Sample.leased_with_pool =
       (Raise (TypeError "wait_for() missing 1 required positional argument: 'timeout'"),
        Sample.leased_with_pool)
  /\ autocommit_before_send_handler (Scenario.stock AwaitsUnbounded)
       (Sample.response_start 204) Sample.leased_with_pool =
       (Raise (AttributeError "commit"),
        with_scope_state {[ POOL_SCOPE_KEY := OPool 1 ]}
          (with_events [EvRelease 1 (OConn 7)] Sample.leased_with_pool))
  /\ autocommit_before_send_handler (Scenario.stock AwaitsUnbounded)
       (Sample.response_start 404) Sample.leased_with_pool =
       (Raise (AttributeError "rollback"),
        with_scope_state {[ POOL_SCOPE_KEY := OPool 1 ]}
          (with_events [EvRelease 1 (OConn 7)] Sample.leased_with_pool))
  /\ transaction_ops Sample.leased = []
  /\ transaction_ops
       (with_events [EvRelease 1 (OConn 7)] Sample.leased_with_pool) = [].
Proof.
  split; [intros []; vm_compute; reflexivity|].
  repeat split; vm_compute; reflexivity.
Qed.

(** ** Release at most once *)

Lemma falsy_is_none (o : Obj) : truthy o = false -> o = ONone.
Proof. destruct o; [reflexivity | discriminate | discriminate]. Qed.

(** In a world where the handler cannot get at a release, a message
    adds no call on a pool, and the handler still cannot get at one
    afterwards. *)
Lemma cannot_release_step (be : Backend) (h : Handler) (message : Message)
    (w : World) :
  cannot_release be h w ->
  cannot_release be h (snd (run_handler be h message w))
  /\ pool_ops (snd (run_handler be h message w)) = pool_ops w
  /\ releases (snd (run_handler be h message w)) = releases w.
Proof.
  intros Hc.
  assert (Hl : exists l,
             snd (run_handler be h message w) = with_events (events w ++ l) w
             /\ filter (fun e => is_release e = true) l = []
             /\ filter (fun e => is_pool_op e = true) l = []).
  { destruct (truthy (default ONone (scope_state w !! SESSION_SCOPE_KEY))) eqn:Hs.
    2:{ rewrite (handler_without_session be h message w (falsy_is_none _ Hs)).
        exists []. simpl. rewrite app_nil_r, with_events_same. auto. }
    destruct Hc as [Hc | [Hc | [-> Hwf]]]; [congruence | |].
    - destruct h; simpl.
      + exists []. rewrite app_nil_r, with_events_same. split; [|auto].
        destruct (default ONone (scope_state w !! POOL_SCOPE_KEY)) as [| c | p] eqn:Hp.
        * rewrite default_handler_skips by (rewrite Hp; reflexivity). reflexivity.
        * destruct (is_terminus message) eqn:Ht.
          -- rewrite (default_handler_bad_pool be message w c Hp Hs Ht). reflexivity.
          -- rewrite default_handler_skips by (rewrite Ht; apply andb_false_r).
             reflexivity.
        * destruct (Hc p eq_refl).
      + apply autocommit_unreleased. left. exact Hc.
    - simpl. apply autocommit_unreleased. right. exact Hwf. }
  destruct Hl as (l & -> & Hr & Hp).
  split; [exact Hc|]. split; [apply pool_ops_app, Hp|].
  rewrite releases_app, Hr. simpl. lia.
Qed.

Lemma cannot_release_steps (be : Backend) (h : Handler) (messages : list Message)
    (w : World) :
  cannot_release be h w ->
  pool_ops (handle_all (run_handler be h) messages w) = pool_ops w
  /\ releases (handle_all (run_handler be h) messages w) = releases w.
Proof.
  revert w. induction messages as [| message rest IH]; intros w Hc; simpl; [auto|].
  destruct (cannot_release_step be h message w Hc) as (Hc' & Hp & Hr).
  destruct (IH _ Hc') as [IHp IHr]. rewrite IHp, IHr, Hp, Hr. auto.
Qed.

(** On a pool whose [release] returns, a terminus message leaves the
    handler unable to release again, having released at most once. *)
Lemma cannot_release_after_terminus (be : Backend) (h : Handler)
    (message : Message) (w : World) :
  (forall p session log, pool_release be p session log = None) ->
  is_terminus message = true ->
  cannot_release be h (snd (run_handler be h message w))
  /\ (releases (snd (run_handler be h message w)) <= releases w + 1)%nat.
Proof.
  intros Hrel Ht.
  assert (Hstay : cannot_release be h w ->
            cannot_release be h (snd (run_handler be h message w))
            /\ (releases (snd (run_handler be h message w)) <= releases w + 1)%nat).
  { intros Hc. destruct (cannot_release_step be h message w Hc) as (Hc' & _ & Hr).
    rewrite Hr. split; [exact Hc' | lia]. }
  destruct (truthy (default ONone (scope_state w !! SESSION_SCOPE_KEY))) eqn:Hs;
    [|apply Hstay; left; exact Hs].
  destruct (default ONone (scope_state w !! POOL_SCOPE_KEY)) as [| c | p] eqn:Hp;
    [apply Hstay; right; left; rewrite Hp; discriminate
    |apply Hstay; right; left; rewrite Hp; discriminate|].
  pose proof (truthy_lookup _ _ Hs) as Hlook.
  set (session := default ONone (scope_state w !! SESSION_SCOPE_KEY)) in *.
  assert (Hpl : scope_state w !! POOL_SCOPE_KEY = Some (OPool p)).
  { destruct (scope_state w !! POOL_SCOPE_KEY) as [o |]; simpl in Hp;
      [congruence | discriminate]. }
  destruct h; simpl.
  - rewrite (default_handler_releases be message w session p Hlook Hs Hpl Ht), Hrel.
    simpl. split.
    + left. simpl. rewrite lookup_delete_eq. reflexivity.
    + unfold releases. simpl. rewrite filter_app, length_app. simpl.
      destruct (decide (is_release (EvRelease p session) = true)); simpl; lia.
  - destruct (wait_for_one_arg be) eqn:Hwf.
    { apply (Hstay (or_intror (or_intror (conj eq_refl Hwf)))). }
    unfold autocommit_before_send_handler, bind, get_litestar_scope_state.
    simpl. fold session. rewrite Hp. unfold try_finally.
    destruct (commit_or_rollback_frame be session message w) as (l & Hw & Hl & _).
    destruct (commit_or_rollback be session message w) as [r wb]. simpl in Hw. subst wb.
    rewrite (release_on_terminus_awaited be session p message
               (with_events (events w ++ l) w))
      by (assumption || (rewrite Hs, Ht; reflexivity)).
    rewrite Hrel. simpl. split.
    + left. simpl. rewrite lookup_delete_eq. reflexivity.
    + unfold releases. simpl. rewrite !filter_app, !length_app, Hl. simpl.
      destruct (decide (is_release (EvRelease p session) = true)); simpl; lia.
Qed.

(** C9, as stated, fails.  The scope holds connection 7 and pool 1, and
    [pool.release] raises: the plain policy calls it on the first
    terminus message, leaves the session entry in place, and calls it
    again on the second, so the release is invoked twice for one
    lease. *)
Lemma release_invoked_twice :
  releases
    (snd (default_before_send_handler (Sample.failing_release MissingTimeoutRaises)
            Sample.websocket_close
            (snd (default_before_send_handler
                    (Sample.failing_release MissingTimeoutRaises)
                    Sample.http_disconnect Sample.leased_with_pool)))) = 2%nat
  /\ pool_ops
       (snd (default_before_send_handler (Sample.failing_release MissingTimeoutRaises)
               Sample.websocket_close
               (snd (default_before_send_handler
                       (Sample.failing_release MissingTimeoutRaises)
                       Sample.http_disconnect Sample.leased_with_pool)))) <>
     pool_ops
       (snd (default_before_send_handler (Sample.failing_release MissingTimeoutRaises)
               Sample.http_disconnect Sample.leased_with_pool)).
Proof.
  split; [vm_compute; reflexivity|]. vm_compute. discriminate.
Qed.

(** C9, amended.  On a pool whose [release] does not raise, once either
    policy has handled a terminus message for a scope, no further
    message for that scope leads to a call on the pool, and over the
    whole sequence the release is invoked at most once.  This needs
    nothing of the handler's own outcome: it may have raised. *)
Theorem release_at_most_once (be : Backend) (h : Handler) (first : Message)
    (rest : list Message) (w : World) :
  (forall p session log, pool_release be p session log = None) ->
  is_terminus first = true ->
  pool_ops (handle_all (run_handler be h) rest (snd (run_handler be h first w))) =
    pool_ops (snd (run_handler be h first w))
  /\ (releases (handle_all (run_handler be h) (first :: rest) w) <= releases w + 1)%nat.
Proof.
  intros Hrel Ht. simpl.
  destruct (cannot_release_after_terminus be h first w Hrel Ht) as [Hc Hle].
  destruct (cannot_release_steps be h rest _ Hc) as [Hp Hr].
  rewrite Hp, Hr. auto.
Qed.

Lemma release_at_most_once_witness :
  pool_ops
    (handle_all (run_handler (Sample.backend MissingTimeoutRaises) DefaultHandler)
       [Sample.websocket_close; Sample.response_start 200]
       (snd (run_handler (Sample.backend MissingTimeoutRaises) DefaultHandler
               Sample.http_disconnect Sample.leased_with_pool))) =
  pool_ops
    (snd (run_handler (Sample.backend MissingTimeoutRaises) DefaultHandler
            Sample.http_disconnect Sample.leased_with_pool))
  /\ (releases
        (handle_all (run_handler (Sample.backend MissingTimeoutRaises) DefaultHandler)
           (Sample.http_disconnect
            :: [Sample.websocket_close; Sample.response_start 200])
           Sample.leased_with_pool)
      <= releases Sample.leased_with_pool + 1)%nat.
Proof.
  apply (release_at_most_once (Sample.backend MissingTimeoutRaises) DefaultHandler
           Sample.http_disconnect [Sample.websocket_close; Sample.response_start 200]
           Sample.leased_with_pool).
  - intros p session log. reflexivity.
  - reflexivity.
Defined.
